(** * Feature applicators of openstf: a shallow embedding

    Source: [openstf/feature_engineering/feature_applicator.py].

    The three applicators ([TrainFeatureApplicator],
    [OperationalPredictFeatureApplicator], [BackTestPredictFeatureApplicator])
    are embedded as functions over a small model of the Python values and of
    the pandas tables they handle.  Exceptions are results in an error monad,
    the mutation of [self.horizons] is explicit state passing, and the
    collaborators [apply_features], [add_missing_feature_columns] and
    [remove_extra_feature_columns], which live in other modules, are section
    variables. *)

From Stdlib Require Import QArith.
From Stdlib Require SpecFloat.
From stdpp Require Import gmap strings list sorting pretty.

Local Open Scope Z_scope.

(** ** Python values *)

(** A Python number as far as this module looks at it: the applicators
    never compute with numbers, they only store and compare them.  [Num],
    [Inf] and [NaN] are the floats ([NaN] is [np.nan], [Inf true] is minus
    infinity); [Int] is a Python int, and a cell of an int64 column.  In a
    column that holds a float pandas holds every number as float64, so the
    int [24] of the list [[0.25, 24]] is written [Num 24]; an int of fewer
    than 53 bits compares like the float of its value in any case
    ([small_int_as_float] below). *)
Inductive pyfloat : Type :=
  | Num (q : Q)
  | Int (z : Z)
  | Inf (negative : bool)
  | NaN.

Definition is_Int (v : pyfloat) : bool :=
  match v with
  | Int _ => true
  | _ => false
  end.

(** [a / 2 ^ e] rounded to the nearest integer, ties to the even one. *)
Definition rne (a e : Z) : Z :=
  let q := a / 2 ^ e in
  let r := a mod 2 ^ e in
  let half := 2 ^ (e - 1) in
  if r <? half then q
  else if half <? r then q + 1
  else if Z.even q then q else q + 1.

(** The float64 nearest to the integer [a >= 0]: [a] itself when it has at
    most 53 bits, else [a] rounded to 53 significant bits. *)
Definition round64_abs (a : Z) : Z :=
  let e := Z.log2 a - 52 in
  if e <=? 0 then a else 2 ^ e * rne a e.

(** The float64 an int64 becomes when numpy converts it. *)
Definition round64 (z : Z) : Z :=
  if z <? 0 then - round64_abs (- z) else round64_abs z.

(** The same conversion by the IEEE 754 specification of the Standard
    Library, binary64 being 53 bits of precision with exponents up to 1024;
    read back as an integer, which the float of an integer beyond [2 ^ 53]
    is. *)
Definition round64_ieee (z : Z) : Z :=
  match SpecFloat.binary_normalize 53 1024 z 0 false with
  | SpecFloat.S754_finite s m e => (if s then -1 else 1) * (Z.pos m * 2 ^ e)
  | _ => 0
  end.

(** A number as a float64: an int is rounded, a float is itself. *)
Definition as_float (v : pyfloat) : pyfloat :=
  match v with
  | Int z => Num (inject_Z (round64 z))
  | _ => v
  end.

(** A number by its value, ints taken exactly. *)
Definition exact (v : pyfloat) : pyfloat :=
  match v with
  | Int z => Num (inject_Z z)
  | _ => v
  end.

(** [a > b] on two numbers, as numpy compares an element with a scalar: two
    ints exactly, an int with a float after the int is converted to float64.
    Every comparison with NaN is false. *)
Definition py_gt (a b : pyfloat) : bool :=
  match a, b with
  | NaN, _ | _, NaN => false
  | Int x, Int y => y <? x
  | Int x, Num y => negb (Qle_bool (inject_Z (round64 x)) y)
  | Num x, Int y => negb (Qle_bool x (inject_Z (round64 y)))
  | Num x, Num y => negb (Qle_bool x y)
  | (Num _ | Int _), Inf negative => negative
  | Inf negative, (Num _ | Int _) => negb negative
  | Inf n1, Inf n2 => negb n1 && n2
  end.

(** [a <= b], likewise. *)
Definition py_le (a b : pyfloat) : bool :=
  match a, b with
  | NaN, _ | _, NaN => false
  | Int x, Int y => x <=? y
  | Int x, Num y => Qle_bool (inject_Z (round64 x)) y
  | Num x, Int y => Qle_bool x (inject_Z (round64 y))
  | Num x, Num y => Qle_bool x y
  | (Num _ | Int _), Inf negative => negb negative
  | Inf negative, (Num _ | Int _) => negative
  | Inf n1, Inf n2 => n1 || negb n2
  end.

(** [a > b] with both numbers taken as float64. *)
Definition float64_gt (a b : pyfloat) : bool :=
  py_gt (as_float a) (as_float b).

(** [a > b] on the values themselves, with no rounding. *)
Definition value_gt (a b : pyfloat) : bool :=
  py_gt (exact a) (exact b).

(** float64 holds the number exactly: every float, and the ints of
    magnitude up to [2 ^ 53]. *)
Definition exact64 (v : pyfloat) : bool :=
  match v with
  | Int z => Z.abs z <=? 2 ^ 53
  | _ => true
  end.

(** The values a caller can pass as [horizons]: [None], a bare number, or a
    list of numbers. *)
Inductive pyobj : Type :=
  | PyNone
  | PyNumber (x : pyfloat)
  | PyList (l : list pyfloat).

(** The exceptions raised in this module and by the table operations. *)
Inductive exn : Type :=
  | ValueError (msg : string)
  | TypeError (msg : string)
  | KeyError (key : string)
  | OtherError (msg : string).

Inductive Result (A : Type) : Type :=
  | Ok (a : A)
  | Error (e : exn).
Arguments Ok {A} a.
Arguments Error {A} e.

#[global] Instance Result_ret : MRet Result := @Ok.
#[global] Instance Result_bind : MBind Result := λ A B f m,
  match m with
  | Ok a => f a
  | Error e => Error e
  end.

(** [type(x) is list] *)
Definition type_is_list (x : pyobj) : bool :=
  match x with
  | PyList _ => true
  | _ => false
  end.

(** [x is None] *)
Definition is_None (x : pyobj) : bool :=
  match x with
  | PyNone => true
  | _ => false
  end.

(** [bool(x)]: the truth value Python's [not] and [and] work on. *)
Definition truthy (x : pyobj) : bool :=
  match x with
  | PyNone => false
  | PyNumber (Num q) => negb (Qeq_bool q 0)
  | PyNumber (Int z) => negb (z =? 0)
  | PyNumber _ => true
  | PyList l => negb (bool_decide (l = []))
  end.

(** [len(x)] *)
Definition len (x : pyobj) : Result nat :=
  match x with
  | PyList l => Ok (length l)
  | PyNone => Error (TypeError "object of type 'NoneType' has no len()")
  | PyNumber (Int _) => Error (TypeError "object of type 'int' has no len()")
  | PyNumber _ => Error (TypeError "object of type 'float' has no len()")
  end.

(** The elements a [for] loop over [x] visits. *)
Definition iter (x : pyobj) : Result (list pyfloat) :=
  match x with
  | PyList l => Ok l
  | PyNone => Error (TypeError "'NoneType' object is not iterable")
  | PyNumber (Int _) => Error (TypeError "'int' object is not iterable")
  | PyNumber _ => Error (TypeError "'float' object is not iterable")
  end.

(** [x[0]] *)
Definition getitem0 (x : pyobj) : Result pyfloat :=
  match x with
  | PyList (h :: _) => Ok h
  | PyList [] => Error (OtherError "IndexError: list index out of range")
  | PyNone => Error (TypeError "'NoneType' object is not subscriptable")
  | PyNumber (Int _) => Error (TypeError "'int' object is not subscriptable")
  | PyNumber _ => Error (TypeError "'float' object is not subscriptable")
  end.

(** ** pandas tables *)

(** A row: its index label (the timestamp, in nanoseconds as pandas keeps it)
    and one cell per column. *)
Record Row : Type := mkRow {
  label : Z;
  cells : gmap string pyfloat;
}.

(** A table: the column labels in order and the rows in order.  The same
    label may occur on several rows. *)
Record DataFrame : Type := mkDataFrame {
  columns : list string;
  rows : list Row;
}.

(** The value of a row in a column; a cell that was never written is
    missing. *)
Definition get_cell (c : string) (r : Row) : pyfloat :=
  default NaN (cells r !! c).

Definition set_cell (c : string) (v : pyfloat) (r : Row) : Row :=
  mkRow (label r) (<[c := v]> (cells r)).

(** A row laid out on the columns [cols]: cells of other columns are
    dropped, cells the row lacks are missing. *)
Definition reindex (cols : list string) (r : Row) : Row :=
  mkRow (label r) (list_to_map ((λ c, (c, get_cell c r)) <$> cols)).

(** [pd.DataFrame()] *)
Definition DataFrame_empty : DataFrame := mkDataFrame [] [].

(** [len(df)] and [df.index] *)
Definition nrows (df : DataFrame) : nat := length (rows df).
Definition index (df : DataFrame) : list Z := label <$> rows df.

Definition add_column (c : string) (cols : list string) : list string :=
  if bool_decide (c ∈ cols) then cols else cols ++ [c].

(** [df[c] = v] for a scalar [v]: the column is overwritten, or added as the
    last one. *)
Definition setitem (df : DataFrame) (c : string) (v : pyfloat) : DataFrame :=
  mkDataFrame (add_column c (columns df)) (set_cell c v <$> rows df).

(** [df[c]]: the values of a column in row order; an unknown label is a
    [KeyError]. *)
Definition getitem (df : DataFrame) (c : string) : Result (list pyfloat) :=
  if bool_decide (c ∈ columns df) then Ok (get_cell c <$> rows df)
  else Error (KeyError c).

(** A column whose cells are all ints is an int64 column; any other column
    is a float64 column, where an int is held as the float nearest to it. *)
Definition int64_column (s : list pyfloat) : bool := forallb is_Int s.

(** An element of a column as the comparison reads it. *)
Definition element (int_col : bool) (v : pyfloat) : pyfloat :=
  if int_col then v else as_float v.

(** [series > time]: the boolean mask, element by element. *)
Definition series_gt (s : list pyfloat) (time : pyfloat) : list bool :=
  (λ v, py_gt (element (int64_column s) v) time) <$> s.

(** [a.append(b)]: the rows of [a] followed by the rows of [b], over the
    union of the columns; rows are not merged on their label. *)
Definition append (a b : DataFrame) : DataFrame :=
  let cols := columns a ++ filter (λ c, c ∉ columns a) (columns b) in
  mkDataFrame cols (reindex cols <$> (rows a ++ rows b)).

Fixpoint loc_set_rows (present : bool) (c : string) (v : pyfloat)
    (mask : list bool) (rs : list Row) : list Row :=
  match rs with
  | [] => []
  | r :: rs =>
      let r' :=
        if hd false mask then set_cell c v r
        else if present then r else set_cell c NaN r in
      r' :: loc_set_rows present c v (tl mask) rs
  end.

(** [df.loc[mask, c] = v] for a scalar [v]: the rows selected by the mask
    get [v] in column [c].  When the frame has no column [c] the column is
    created, and is missing on the rows that are not selected; pandas
    refuses to create it on a frame without rows. *)
Definition loc_setitem (df : DataFrame) (mask : list bool) (c : string)
    (v : pyfloat) : Result DataFrame :=
  if negb (bool_decide (c ∈ columns df)) && (nrows df =? 0)%nat
  then Error (ValueError "cannot set a frame with no defined index and a scalar")
  else
    Ok (mkDataFrame (add_column c (columns df))
          (loc_set_rows (bool_decide (c ∈ columns df)) c v mask (rows df))).

Definition label_le (r1 r2 : Row) : Prop := label r1 ≤ label r2.

#[global] Instance label_le_dec r1 r2 : Decision (label_le r1 r2).
Proof. unfold label_le. apply _. Defined.

(** [df.sort_index()]: the rows in ascending order of their label. *)
Definition sort_index (df : DataFrame) : DataFrame :=
  mkDataFrame (columns df) (merge_sort label_le (rows df)).

(** ** The applicators *)

(** The signature of [apply_features(df, feature_names=..., horizon=...)],
    of [openstf.feature_engineering.apply_features]. *)
Definition apply_features_t : Type :=
  DataFrame → option (list string) → pyfloat → Result DataFrame.

(** The signature shared by [add_missing_feature_columns] and
    [remove_extra_feature_columns], of [openstf.feature_engineering.general]. *)
Definition reconcile_t : Type :=
  DataFrame → option (list string) → Result DataFrame.

(** [LATENCY_CONFIG = {"APX": 24}]: a dict is its items in insertion order. *)
Definition LATENCY_CONFIG : list (string * pyfloat) := [("APX"%string, Num 24)].

Module AbstractFeatureApplicator.

Record t : Type := mk {
  feature_names : option (list string);
  horizons : pyobj;
}.

(** [if type(horizons) is not list and not None: raise ValueError(...)]:
    the right operand of [and] is the expression [not None]. *)
Definition __init__ (horizons : pyobj) (feature_names : option (list string))
    : Result t :=
  if negb (type_is_list horizons) && negb (truthy PyNone)
  then Error (ValueError "Horizons must be added as a list")
  else Ok {| feature_names := feature_names; horizons := horizons |}.

End AbstractFeatureApplicator.

Abbreviation Applicator := AbstractFeatureApplicator.t.
Abbreviation feature_names := AbstractFeatureApplicator.feature_names.
Abbreviation horizons := AbstractFeatureApplicator.horizons.

Module TrainFeatureApplicator.
Section collaborators.
Variable apply_features : apply_features_t.

Definition __init__ := AbstractFeatureApplicator.__init__.

(** [if self.horizons is None: self.horizons = [0.25, 24]] *)
Definition set_default_horizons (self : Applicator) : Applicator :=
  if is_None (horizons self)
  then AbstractFeatureApplicator.mk (feature_names self)
         (PyList [Num (1 # 4); Num 24])
  else self.

(** The loop over the horizons: each pass computes the features, tags the
    rows with the horizon and appends them to [result]. *)
Fixpoint for_horizons (self : Applicator) (df : DataFrame)
    (hs : list pyfloat) (result : DataFrame) : Result DataFrame :=
  match hs with
  | [] => mret result
  | horizon :: hs =>
      res ← apply_features df (feature_names self) horizon;
      let res := setitem res "Horizon" horizon in
      for_horizons self df hs (append result res)
  end.

(** The loop over [latency_config.items()]:
    [result.loc[result["Horizon"] > time, feature] = np.nan]. *)
Fixpoint for_latency (items : list (string * pyfloat)) (result : DataFrame)
    : Result DataFrame :=
  match items with
  | [] => mret result
  | (feature, time) :: items =>
      horizon_column ← getitem result "Horizon";
      result ← loc_setitem result (series_gt horizon_column time) feature NaN;
      for_latency items result
  end.

(** [add_features(self, df, latency_config)]: the applicator after the
    call, and what the call returns or raises. *)
Definition add_features (self : Applicator) (df : DataFrame)
    (latency_config : list (string * pyfloat))
    : Applicator * Result DataFrame :=
  let self := set_default_horizons self in
  (self,
   hs ← iter (horizons self);
   result ← for_horizons self df hs DataFrame_empty;
   result ← for_latency latency_config result;
   mret (sort_index result)).

End collaborators.
End TrainFeatureApplicator.

Module OperationalPredictFeatureApplicator.
Section collaborators.
Variable apply_features : apply_features_t.
Variables add_missing_feature_columns remove_extra_feature_columns : reconcile_t.

Definition __init__ := AbstractFeatureApplicator.__init__.

Definition add_features (self : Applicator) (df : DataFrame)
    : Result DataFrame :=
  num_horizons ← len (horizons self);
  if negb (Nat.eqb num_horizons 1)
  then Error (ValueError "Expected one horizon, got {num_horizons}")
  else
    horizon ← getitem0 (horizons self);
    df ← apply_features df (feature_names self) horizon;
    df ← add_missing_feature_columns df (feature_names self);
    df ← remove_extra_feature_columns df (feature_names self);
    mret df.

End collaborators.
End OperationalPredictFeatureApplicator.

Module BackTestPredictFeatureApplicator.
Section collaborators.
Variable apply_features : apply_features_t.
Variables add_missing_feature_columns remove_extra_feature_columns : reconcile_t.

Definition __init__ := AbstractFeatureApplicator.__init__.

(** [apply_features(df, horizon=self.horizons[0])]: no [feature_names]
    argument, so the collaborator sees its default, [None]. *)
Definition add_features (self : Applicator) (df : DataFrame)
    : Result DataFrame :=
  num_horizons ← len (horizons self);
  if negb (Nat.eqb num_horizons 1)
  then Error (ValueError "Expected one horizon, got {num_horizons}")
  else
    horizon ← getitem0 (horizons self);
    df ← apply_features df None horizon;
    df ← add_missing_feature_columns df (feature_names self);
    df ← remove_extra_feature_columns df (feature_names self);
    mret df.

End collaborators.
End BackTestPredictFeatureApplicator.

(** ** The reconciliation collaborators *)

(** Modelled from the spec: [add_missing_feature_columns] is defined in
    [openstf.feature_engineering.general], which is not among the sources.
    "Any column present in the requested feature-name list but absent from
    the computed result is added and filled with missing values."  The spec
    gives no behaviour for an absent list; the model raises there. *)
Definition add_missing_feature_columns : reconcile_t := λ df feature_names,
  match feature_names with
  | None => Error (TypeError "'NoneType' object is not iterable")
  | Some featurelist =>
      let missing := filter (λ f, f ∉ columns df) featurelist in
      Ok (foldl (λ df f, setitem df f NaN) df missing)
  end.

(** Modelled from the spec: [remove_extra_feature_columns] is defined in
    [openstf.feature_engineering.general], which is not among the sources.
    "Any column present in the result but NOT in the requested feature-name
    list is dropped."  The spec gives no behaviour for an absent list; the
    model raises there. *)
Definition remove_extra_feature_columns : reconcile_t := λ df feature_names,
  match feature_names with
  | None => Error (TypeError "argument of type 'NoneType' is not iterable")
  | Some featurelist =>
      let kept := filter (λ c, c ∈ featurelist) (columns df) in
      Ok (mkDataFrame kept (reindex kept <$> rows df))
  end.

(** ** Contracts of the collaborators *)

(** What the spec assumes of [add_missing_feature_columns]: the requested
    columns are added to the columns of the table, the rows keep their label
    and their cells, and an added column is missing on every row. *)
Definition add_missing_post (fl : list string) (df df' : DataFrame) : Prop :=
  (∀ c, c ∈ columns df' ↔ c ∈ columns df ∨ c ∈ fl) ∧
  Forall2 (λ r r', label r' = label r ∧
                   ∀ c, c ∈ columns df' →
                        get_cell c r' =
                          if bool_decide (c ∈ columns df) then get_cell c r
                          else NaN)
          (rows df) (rows df').

Definition adds_missing_columns (f : reconcile_t) : Prop :=
  ∀ df fl, ∃ df', f df (Some fl) = Ok df' ∧ add_missing_post fl df df'.

(** What the spec assumes of [remove_extra_feature_columns]: the columns
    that were not requested are dropped, the rows keep their label and the
    cells of the columns that stay. *)
Definition remove_extra_post (fl : list string) (df df' : DataFrame) : Prop :=
  (∀ c, c ∈ columns df' ↔ c ∈ columns df ∧ c ∈ fl) ∧
  Forall2 (λ r r', label r' = label r ∧
                   ∀ c, c ∈ columns df' → get_cell c r' = get_cell c r)
          (rows df) (rows df').

Definition removes_extra_columns (f : reconcile_t) : Prop :=
  ∀ df fl, ∃ df', f df (Some fl) = Ok df' ∧ remove_extra_post fl df df'.


(** A table is rectangular when no row has a cell outside its columns. *)
Definition rectangular (df : DataFrame) : Prop :=
  Forall (λ r, ∀ c, c ∉ columns df → cells r !! c = None) (rows df).

(** ** Reading the result *)


(** The rows [apply_features] returned for the horizon, tagged with it. *)
Definition tagged (horizon : pyfloat) (res : DataFrame) : list Row :=
  rows (setitem res "Horizon" horizon).

(** What [result.loc[result["Horizon"] > time, feature] = np.nan] does to one
    row; [int_col] tells whether [Horizon] is an int64 column, [present]
    whether the frame has the column [feature]. *)
Definition invalidate (int_col present : bool) (feature : string)
    (time : pyfloat) (r : Row) : Row :=
  if py_gt (element int_col (get_cell "Horizon" r)) time
  then set_cell feature NaN r
  else if present then r else set_cell feature NaN r.

(** The message mentions the number [n], written in decimal. *)
Fixpoint is_substring (sub s : string) : bool :=
  String.prefix sub s ||
  match s with
  | EmptyString => false
  | String _ s' => is_substring sub s'
  end.

Definition reports_count (msg : string) (n : nat) : bool :=
  is_substring (pretty n) msg.

Definition message (e : exn) : string :=
  match e with
  | ValueError msg | TypeError msg | OtherError msg => msg
  | KeyError key => key
  end.

(** ** Example data *)

(** A collaborator that computes no feature: it hands the table back. *)
Definition apply_features_none : apply_features_t := λ df _ _, Ok df.

(** A collaborator that computes the one feature [T-720min], whatever was
    requested. *)
Definition apply_features_lag : apply_features_t := λ df _ _,
  Ok (setitem df "T-720min" (Num 1)).

Definition load_apx_row (t : Z) : Row :=
  mkRow t (<["load" := Num (inject_Z t)]> (<["APX" := Num (inject_Z (100 + t))]> ∅)).

(** Ten rows, with timestamps 1 to 10 and the columns [load] and [APX]. *)
Definition table10 : DataFrame :=
  mkDataFrame ["load"; "APX"]%string (load_apx_row <$> [1; 2; 3; 4; 5; 6; 7; 8; 9; 10]).

(** Three rows with the one column [load]. *)
Definition table3 : DataFrame :=
  mkDataFrame ["load"]%string
    ((λ t, mkRow t (<["load" := Num (inject_Z t)]> ∅)) <$> [1; 2; 3]).

(** A collaborator that has nothing to compute from beyond one hour ahead:
    it raises there, and hands the table back otherwise. *)
Definition apply_features_short : apply_features_t := λ df _ horizon,
  if py_gt horizon (Num 1) then Error (OtherError "no data for this horizon")
  else Ok df.

(** One pass of the latency loop that goes through. *)
Definition latency_step (result : DataFrame) (item : string * pyfloat)
    : DataFrame :=
  mkDataFrame (add_column item.1 (columns result))
    (invalidate (int64_column (get_cell "Horizon" <$> rows result))
       (bool_decide (item.1 ∈ columns result)) item.1 item.2
       <$> rows result).

(** The frames the loop over the horizons appends, in order. *)
Definition tagged_frames (hs : list pyfloat) (blocks : list DataFrame)
    : list DataFrame :=
  zip_with (λ h b, setitem b "Horizon" h) hs blocks.

(** Two rows agree on the columns selected by [P]. *)
Definition agree (P : string → Prop) (r r' : Row) : Prop :=
  label r' = label r ∧ ∀ c, P c → get_cell c r' = get_cell c r.

(** On the columns selected by [P], the rows have no value outside the
    columns of the frame. *)
Definition confined (P : string → Prop) (df : DataFrame) : Prop :=
  Forall (λ r, ∀ c, P c → c ∈ columns df ∨ get_cell c r = NaN) (rows df).

(** Timestamp, horizon tag and [APX] value of a row. *)
Definition apx_view (r : Row) : Z * pyfloat * pyfloat :=
  (label r, get_cell "Horizon" r, get_cell "APX" r).

(** The applicator of the scenario: [TrainFeatureApplicator(horizons=[0.25, 24])]. *)
Definition trainer : Applicator :=
  AbstractFeatureApplicator.mk None (PyList [Num (1 # 4); Num 24]).

(** The scenario of the spec, read on the collaborator [af] and the table
    [df]: 20 rows, [APX] missing on the rows tagged 24, the [APX] value of the
    input on the rows tagged 0.25, rows in ascending order of timestamp. *)
Definition scenario_as_stated (af : apply_features_t) (df : DataFrame) : Prop :=
  ∃ out,
    (TrainFeatureApplicator.add_features af trainer df [("APX"%string, Num 24)]).2
      = Ok out ∧
    nrows out = 20%nat ∧
    (∀ r, r ∈ rows out → get_cell "Horizon" r = Num 24 →
          get_cell "APX" r = NaN) ∧
    (∀ r, r ∈ rows out → get_cell "Horizon" r = Num (1 # 4) →
          ∃ r0, r0 ∈ rows df ∧ label r0 = label r ∧
                get_cell "APX" r0 = get_cell "APX" r) ∧
    StronglySorted Z.le (index out).





(** The latency invalidation as the spec states it, read on one call: in
    the returned table a feature of the configuration is missing on every
    row whose horizon is greater than the feature's threshold, the two
    numbers compared by their values. *)
Definition invalidation_as_stated (af : apply_features_t) (self : Applicator)
    (df : DataFrame) (lc : list (string * pyfloat)) : Prop :=
  ∀ out f t r,
    (TrainFeatureApplicator.add_features af self df lc).2 = Ok out →
    (f, t) ∈ lc →
    r ∈ rows out →
    value_gt (get_cell "Horizon" r) t = true →
    get_cell f r = NaN.


(** * Properties *)

(** ** Numbers *)

Lemma round64_abs_small a : 0 ≤ a < 2 ^ 53 → round64_abs a = a.
Proof.
  intros [H0 H1]. unfold round64_abs.
  destruct (Z.leb_spec (Z.log2 a - 52) 0) as [|He]; [done|].
  assert (0 < a) as Hpos.
  { destruct (Z.eq_dec a 0) as [->|]; [simpl in He; lia|lia]. }
  pose proof (Z.log2_spec a Hpos) as [Hlo _].
  assert (2 ^ 53 ≤ 2 ^ Z.log2 a) by (apply Z.pow_le_mono_r; lia). lia.
Qed.

Lemma rne_bounds a e : a / 2 ^ e ≤ rne a e ≤ a / 2 ^ e + 1.
Proof. unfold rne. repeat destruct (_ <? _); try destruct (Z.even _); lia. Qed.

Lemma rne_mono a b e : 0 < e → a ≤ b → rne a e ≤ rne b e.
Proof.
  intros He Hab.
  assert (0 < 2 ^ e) as Hp by (apply Z.pow_pos_nonneg; lia).
  pose proof (Z.div_le_mono a b (2 ^ e) Hp Hab) as Hq.
  destruct (Z.eq_dec (a / 2 ^ e) (b / 2 ^ e)) as [Heq|Hne].
  - assert (a mod 2 ^ e ≤ b mod 2 ^ e) as Hr.
    { rewrite (Z.mod_eq a), (Z.mod_eq b), Heq by lia. lia. }
    unfold rne. rewrite Heq.
    repeat match goal with
           | |- context [?x <? ?y] => destruct (Z.ltb_spec x y)
           end; try destruct (Z.even _); lia.
  - pose proof (rne_bounds a e). pose proof (rne_bounds b e). lia.
Qed.

(** Rounding an integer of more than 53 bits keeps it between the two
    powers of two around it. *)
Lemma round64_abs_large a :
  2 ^ 53 ≤ a →
  round64_abs a = 2 ^ (Z.log2 a - 52) * rne a (Z.log2 a - 52) ∧
  2 ^ Z.log2 a ≤ round64_abs a ≤ 2 ^ (Z.log2 a + 1).
Proof.
  intros Ha.
  assert (0 < a) as Hpos
    by (assert (0 < 2 ^ 53) by (apply Z.pow_pos_nonneg; lia); lia).
  pose proof (Z.log2_spec a Hpos) as [Hlo Hhi].
  assert (53 ≤ Z.log2 a) as Hl by (apply Z.log2_le_pow2; lia).
  set (e := Z.log2 a - 52) in *.
  assert (0 < e) as He by lia.
  assert (round64_abs a = 2 ^ e * rne a e) as Heq.
  { unfold round64_abs. fold e. destruct (Z.leb_spec e 0); [lia|done]. }
  split; [done|]. rewrite Heq.
  assert (0 < 2 ^ e) as Hp by (apply Z.pow_pos_nonneg; lia).
  pose proof (rne_bounds a e) as [Hb1 Hb2].
  assert (Z.log2 a = 52 + e) as Hle by lia.
  assert (2 ^ Z.log2 a = 2 ^ 52 * 2 ^ e) as E1
    by (rewrite Hle, Z.pow_add_r; lia).
  assert (2 ^ (Z.log2 a + 1) = 2 ^ 53 * 2 ^ e) as E2.
  { replace (Z.log2 a + 1) with (53 + e) by lia. rewrite Z.pow_add_r; lia. }
  unfold Z.succ in Hhi.
  assert (2 ^ 52 ≤ a / 2 ^ e) as Hq1 by (apply Z.div_le_lower_bound; lia).
  assert (a / 2 ^ e < 2 ^ 53) as Hq2 by (apply Z.div_lt_upper_bound; lia).
  nia.
Qed.

Lemma round64_abs_nonneg a : 0 ≤ a → 0 ≤ round64_abs a.
Proof.
  intros Ha. destruct (Z.lt_ge_cases a (2 ^ 53)) as [Hs|Hl].
  - rewrite round64_abs_small; lia.
  - destruct (round64_abs_large a Hl) as [_ [Hlo _]].
    assert (0 < 2 ^ Z.log2 a)
      by (apply Z.pow_pos_nonneg; [lia|apply Z.log2_nonneg]).
    lia.
Qed.

Lemma round64_abs_mono a b : 0 ≤ a ≤ b → round64_abs a ≤ round64_abs b.
Proof.
  intros [Ha Hab].
  destruct (Z.lt_ge_cases b (2 ^ 53)) as [Hbs|Hbl].
  - rewrite !round64_abs_small; lia.
  - destruct (round64_abs_large b Hbl) as [Heqb [Hlob _]].
    destruct (Z.lt_ge_cases a (2 ^ 53)) as [Has|Hal].
    + rewrite (round64_abs_small a) by lia.
      assert (2 ^ 53 ≤ 2 ^ Z.log2 b)
        by (apply Z.pow_le_mono_r; [lia|apply Z.log2_le_pow2; lia]).
      lia.
    + destruct (round64_abs_large a Hal) as [Heqa [_ Hhia]].
      pose proof (Z.log2_le_mono a b Hab) as Hlog.
      destruct (Z.eq_dec (Z.log2 a) (Z.log2 b)) as [Hel|Hnl].
      * rewrite Heqa, Heqb, Hel.
        assert (53 ≤ Z.log2 b) by (apply Z.log2_le_pow2; lia).
        apply Z.mul_le_mono_nonneg_l; [apply Z.pow_nonneg; lia|].
        apply rne_mono; lia.
      * assert (2 ^ (Z.log2 a + 1) ≤ 2 ^ Z.log2 b)
          by (apply Z.pow_le_mono_r; lia).
        lia.
Qed.

(** Conversion to float64 keeps the order of the integers. *)
Lemma round64_mono x y : x ≤ y → round64 x ≤ round64 y.
Proof.
  intros Hxy. unfold round64.
  destruct (Z.ltb_spec x 0), (Z.ltb_spec y 0).
  - pose proof (round64_abs_mono (- y) (- x)). lia.
  - pose proof (round64_abs_nonneg (- x)).
    pose proof (round64_abs_nonneg y). lia.
  - lia.
  - apply round64_abs_mono. lia.
Qed.

(** float64 holds the integers up to [2 ^ 53] exactly. *)
Lemma round64_exact z : Z.abs z ≤ 2 ^ 53 → round64 z = z.
Proof.
  intros Hz. unfold round64.
  assert (round64_abs (2 ^ 53) = 2 ^ 53) as Hedge by by vm_compute.
  destruct (Z.ltb_spec z 0).
  - destruct (Z.eq_dec (- z) (2 ^ 53)) as [Heq|Hne].
    + rewrite Heq, Hedge. lia.
    + rewrite round64_abs_small; lia.
  - destruct (Z.eq_dec z (2 ^ 53)) as [->|Hne]; [done|].
    rewrite round64_abs_small; lia.
Qed.

(** On integers of 54 bits and more, among them the ties and the ends of
    the int64 range, [round64] is the rounding of IEEE 754. *)
Lemma round64_is_ieee_rounding :
  Forall (λ z, round64 z = round64_ieee z)
    [2 ^ 53; 2 ^ 53 + 1; 2 ^ 53 + 2; 2 ^ 53 + 3; 2 ^ 53 + 5; 2 ^ 54 + 2;
     2 ^ 54 + 6; 2 ^ 60 + 12345; 2 ^ 62 + 2 ^ 9; 2 ^ 63 - 1;
     - (2 ^ 53 + 1); - (2 ^ 53 + 3); - (2 ^ 63)].
Proof. repeat (apply Forall_cons; split; [by vm_compute|]). by apply Forall_nil. Qed.

Lemma Qle_bool_inject_Z a b : Qle_bool (inject_Z a) (inject_Z b) = (a <=? b).
Proof.
  destruct (Z.leb_spec a b) as [Hle|Hlt].
  - apply Qle_bool_iff. by rewrite <- Zle_Qle.
  - apply not_true_is_false. rewrite Qle_bool_iff, <- Zle_Qle. lia.
Qed.

Lemma as_float_not_Int v : is_Int (as_float v) = false.
Proof. by destruct v. Qed.

Lemma as_float_float v : is_Int v = false → as_float v = v.
Proof. by destruct v. Qed.

Lemma py_gt_as_float_r a t : is_Int a = false → py_gt a (as_float t) = py_gt a t.
Proof. by destruct a, t. Qed.

Lemma py_gt_as_float_l a t : is_Int t = false → py_gt (as_float a) t = py_gt a t.
Proof. by destruct a, t. Qed.

(** An int of fewer than 53 bits compares like the float of its value, on
    either side of the comparison. *)
Lemma small_int_as_float z v :
  Z.abs z < 2 ^ 53 →
  py_gt (Int z) v = py_gt (Num (inject_Z z)) v ∧
  py_gt v (Int z) = py_gt v (Num (inject_Z z)).
Proof.
  intros Hz. pose proof (round64_exact z) as Hexact.
  assert (∀ x, Z.abs x < 2 ^ 53 → ∀ y, (x <? y) = (x <? round64 y)) as Hlt.
  { intros x Hx y. destruct (Z.ltb_spec x y) as [Hxy|Hxy]; symmetry.
    - apply Z.ltb_lt. pose proof (round64_mono (x + 1) y).
      rewrite (round64_exact (x + 1)) in * by lia. lia.
    - apply Z.ltb_ge. pose proof (round64_mono y x).
      rewrite (round64_exact x) in * by lia. lia. }
  assert (∀ x, Z.abs x < 2 ^ 53 → ∀ y, (y <? x) = (round64 y <? x)) as Hgt.
  { intros x Hx y. destruct (Z.ltb_spec y x) as [Hxy|Hxy]; symmetry.
    - apply Z.ltb_lt. pose proof (round64_mono y (x - 1)).
      rewrite (round64_exact (x - 1)) in * by lia. lia.
    - apply Z.ltb_ge. pose proof (round64_mono x y).
      rewrite (round64_exact x) in * by lia. lia. }
  split; destruct v as [y|y| |]; simpl; try done.
  - rewrite Hexact by lia. done.
  - rewrite Qle_bool_inject_Z, Z.leb_antisym, negb_involutive. by apply Hgt.
  - rewrite Hexact by lia. done.
  - rewrite Qle_bool_inject_Z, Z.leb_antisym, negb_involutive. by apply Hlt.
Qed.

Lemma element_NaN int_col : element int_col NaN = NaN.
Proof. by destruct int_col. Qed.

(** Where the number exceeds the threshold as float64, it exceeds it as the
    comparison reads the column, int64 or not. *)
Lemma float64_gt_element int_col h t :
  float64_gt h t = true → py_gt (element int_col h) t = true.
Proof.
  unfold float64_gt, element. intros Hgt. destruct int_col.
  - destruct h as [x|x| |], t as [y|y| |]; try done.
    simpl in Hgt. rewrite Qle_bool_inject_Z in Hgt. simpl.
    apply negb_true_iff, Z.leb_gt in Hgt. apply Z.ltb_lt.
    destruct (Z.lt_ge_cases y x) as [|Hle]; [done|].
    pose proof (round64_mono x y). lia.
  - by rewrite py_gt_as_float_r in Hgt by apply as_float_not_Int.
Qed.

(** Where the number does not exceed the threshold, it does not exceed it as
    the comparison reads the column, int64 or not. *)
Lemma py_gt_false_element int_col h t :
  py_gt h t = false → py_gt (element int_col h) t = false.
Proof.
  unfold element. intros Hgt. destruct int_col; [done|].
  destruct h as [x|x| |], t as [y|y| |]; try done.
  simpl in *. rewrite Qle_bool_inject_Z. apply negb_false_iff, Z.leb_le.
  apply Z.ltb_ge in Hgt. by apply round64_mono.
Qed.

Lemma float64_gt_exact a b :
  exact64 a = true → exact64 b = true → float64_gt a b = value_gt a b.
Proof.
  unfold float64_gt, value_gt. intros Ha Hb.
  assert (∀ v, exact64 v = true → as_float v = exact v) as Hv.
  { intros [x|x| |] Hx; try done. simpl in *.
    by rewrite round64_exact by by apply Z.leb_le. }
  by rewrite !Hv.
Qed.

(** ** Cells and rows *)

Section cell_facts.
Implicit Types (c : string) (v : pyfloat) (r : Row).

Lemma label_set_cell c v r : label (set_cell c v r) = label r.
Proof. done. Qed.

Lemma get_cell_set_cell c c' v r :
  get_cell c (set_cell c' v r) = if decide (c' = c) then v else get_cell c r.
Proof.
  unfold get_cell, set_cell; simpl. rewrite lookup_insert.
  by destruct (decide (c' = c)).
Qed.

Lemma get_cell_set_cell_eq c v r : get_cell c (set_cell c v r) = v.
Proof. rewrite get_cell_set_cell. by rewrite decide_True. Qed.

Lemma lookup_set_cell_eq c v r : cells (set_cell c v r) !! c = Some v.
Proof. apply lookup_insert_eq. Qed.

Lemma label_reindex cols r : label (reindex cols r) = label r.
Proof. done. Qed.

Lemma lookup_reindex cols c r :
  cells (reindex cols r) !! c =
    if bool_decide (c ∈ cols) then Some (get_cell c r) else None.
Proof.
  unfold reindex; simpl. induction cols as [|c' cols IH].
  - rewrite bool_decide_false by apply not_elem_of_nil. apply lookup_empty.
  - rewrite fmap_cons, list_to_map_cons; simpl. rewrite lookup_insert.
    destruct (decide (c' = c)) as [->|Hne].
    + rewrite bool_decide_true; [done | left].
    + rewrite IH. apply (f_equal (λ b : bool, if b then _ else _)).
      apply bool_decide_ext. rewrite elem_of_cons. intuition congruence.
Qed.

Lemma get_cell_reindex cols c r :
  get_cell c (reindex cols r) =
    if bool_decide (c ∈ cols) then get_cell c r else NaN.
Proof.
  unfold get_cell at 1. rewrite lookup_reindex. by case_bool_decide.
Qed.

Lemma elem_of_add_column c c' cols :
  c ∈ add_column c' cols ↔ c ∈ cols ∨ c = c'.
Proof.
  unfold add_column. case_bool_decide as Hin;
    [split; [by left|by intros [?| ->]]|].
  rewrite elem_of_app, list_elem_of_singleton. done.
Qed.
End cell_facts.

(** ** Construction *)

(** The constructor accepts exactly the lists. *)
Lemma init_list l fn :
  AbstractFeatureApplicator.__init__ (PyList l) fn =
    Ok (AbstractFeatureApplicator.mk fn (PyList l)).
Proof. done. Qed.

Lemma init_not_list h fn :
  type_is_list h = false →
  AbstractFeatureApplicator.__init__ h fn =
    Error (ValueError "Horizons must be added as a list").
Proof. intros Hh. unfold AbstractFeatureApplicator.__init__. by rewrite Hh. Qed.

(** C3: the constructor is meant to raise only when [horizons] is neither a
    list nor [None]; the guard tests [not None], not [horizons is not None],
    so a bare number is rejected, as the claim says, and [None] is rejected
    as well. *)
Theorem init_None_raises fn :
  AbstractFeatureApplicator.__init__ (PyNumber (Num 24)) fn =
    Error (ValueError "Horizons must be added as a list") ∧
  AbstractFeatureApplicator.__init__ PyNone fn =
    Error (ValueError "Horizons must be added as a list").
Proof. split; by apply init_not_list. Qed.

(** ** The single-horizon variants *)

Section single_horizon.
Variable apply_features : apply_features_t.
Variables add_missing remove_extra : reconcile_t.

Local Abbreviation operational :=
  (OperationalPredictFeatureApplicator.add_features
     apply_features add_missing remove_extra).
Local Abbreviation backtest :=
  (BackTestPredictFeatureApplicator.add_features
     apply_features add_missing remove_extra).

Lemma operational_wrong_count fn hs df :
  length hs ≠ 1%nat →
  operational (AbstractFeatureApplicator.mk fn (PyList hs)) df =
    Error (ValueError "Expected one horizon, got {num_horizons}").
Proof.
  intros Hlen. unfold OperationalPredictFeatureApplicator.add_features; simpl.
  by destruct (Nat.eqb_spec (length hs) 1).
Qed.

Lemma backtest_wrong_count fn hs df :
  length hs ≠ 1%nat →
  backtest (AbstractFeatureApplicator.mk fn (PyList hs)) df =
    Error (ValueError "Expected one horizon, got {num_horizons}").
Proof.
  intros Hlen. unfold BackTestPredictFeatureApplicator.add_features; simpl.
  by destruct (Nat.eqb_spec (length hs) 1).
Qed.

Lemma operational_one fn h df :
  operational (AbstractFeatureApplicator.mk fn (PyList [h])) df =
    (computed ← apply_features df fn h;
     completed ← add_missing computed fn;
     remove_extra completed fn).
Proof.
  unfold OperationalPredictFeatureApplicator.add_features; simpl.
  destruct (apply_features df fn h) as [t|]; simpl; [|done].
  destruct (add_missing t fn) as [t'|]; simpl; [|done].
  by destruct (remove_extra t' fn).
Qed.

Lemma backtest_one fn h df :
  backtest (AbstractFeatureApplicator.mk fn (PyList [h])) df =
    (computed ← apply_features df None h;
     completed ← add_missing computed fn;
     remove_extra completed fn).
Proof.
  unfold BackTestPredictFeatureApplicator.add_features; simpl.
  destruct (apply_features df None h) as [t|]; simpl; [|done].
  destruct (add_missing t fn) as [t'|]; simpl; [|done].
  by destruct (remove_extra t' fn).
Qed.

(** Reconciliation under the two contracts: the columns of the outcome are
    the requested ones, a requested column the computation produced keeps
    its cells, any other requested column is missing on every row. *)
Lemma reconcile_post fl computed :
  adds_missing_columns add_missing →
  removes_extra_columns remove_extra →
  ∃ out,
    (completed ← add_missing computed (Some fl);
     remove_extra completed (Some fl)) = Ok out ∧
    (∀ c, c ∈ columns out ↔ c ∈ fl) ∧
    Forall2 (λ r r', label r' = label r ∧
                     ∀ c, c ∈ fl →
                          get_cell c r' =
                            if bool_decide (c ∈ columns computed)
                            then get_cell c r else NaN)
            (rows computed) (rows out).
Proof.
  intros Hadd Hrem.
  destruct (Hadd computed fl) as (t & -> & Hcols & Hrows).
  destruct (Hrem t fl) as (out & Hout & Hcols' & Hrows').
  exists out. simpl. split; [done|]. split.
  - intros c. rewrite Hcols', Hcols. tauto.
  - eapply Forall2_trans; [|exact Hrows|exact Hrows'].
    intros r1 r2 r3 [Hl1 Hc1] [Hl2 Hc2]. split; [congruence|].
    intros c Hc.
    assert (c ∈ columns t) as Hct by (apply Hcols; by right).
    assert (c ∈ columns out) as Hco by (by apply Hcols').
    by rewrite (Hc2 c Hco), (Hc1 c Hct).
Qed.
End single_horizon.

(** The spec-modelled collaborators meet the contracts. *)

Lemma foldl_setitem_NaN ms df :
  let df' := foldl (λ df f, setitem df f NaN) df ms in
  (∀ c, c ∈ columns df' ↔ c ∈ columns df ∨ c ∈ ms) ∧
  Forall2 (λ r r', label r' = label r ∧
                   ∀ c, get_cell c r' =
                        if bool_decide (c ∈ ms) then NaN else get_cell c r)
          (rows df) (rows df').
Proof.
  revert df. induction ms as [|m ms IH]; intros df; simpl.
  - split; [intros c; rewrite elem_of_nil; tauto|].
    apply Forall2_same_length_lookup_2; [done|].
    intros i r r' Hr Hr'. assert (r' = r) as -> by congruence. done.
  - destruct (IH (setitem df m NaN)) as [Hcols Hrows]. split.
    + intros c. rewrite Hcols. simpl.
      rewrite elem_of_add_column, elem_of_cons. intuition auto.
    + eapply (Forall2_trans (λ r r1, r1 = set_cell m NaN r)); [| |exact Hrows].
      2:{ simpl. by apply Forall2_fmap_r, Forall_Forall2_diag, Forall_true. }
      simpl. intros r ? r' -> [Hl Hc]. split; [done|].
      intros c. rewrite Hc, get_cell_set_cell.
      destruct (decide (m = c)) as [->|Hne].
      * rewrite (bool_decide_true (c ∈ c :: ms)) by left. by case_bool_decide.
      * apply (f_equal (λ b : bool, if b then _ else _)).
        apply bool_decide_ext. rewrite elem_of_cons. intuition congruence.
Qed.

Lemma add_missing_feature_columns_contract :
  adds_missing_columns add_missing_feature_columns.
Proof.
  intros df fl. eexists. split; [reflexivity|].
  destruct (foldl_setitem_NaN (filter (λ f, f ∉ columns df) fl) df)
    as [Hcols Hrows].
  split.
  - intros c. rewrite Hcols, list_elem_of_filter.
    destruct (decide (c ∈ columns df)); tauto.
  - eapply Forall2_impl; [exact Hrows|].
    intros r r' [Hl Hc]. split; [done|]. intros c Hin. rewrite Hc.
    apply Hcols in Hin. rewrite list_elem_of_filter in Hin.
    destruct (decide (c ∈ columns df)) as [Hold|Hnew].
    + rewrite (bool_decide_true _ Hold). rewrite bool_decide_false; [done|].
      rewrite list_elem_of_filter. tauto.
    + rewrite (bool_decide_false _ Hnew). rewrite bool_decide_true; [done|].
      rewrite list_elem_of_filter. tauto.
Qed.

Lemma remove_extra_feature_columns_contract :
  removes_extra_columns remove_extra_feature_columns.
Proof.
  intros df fl. eexists. split; [reflexivity|]. split; simpl.
  - intros c. rewrite list_elem_of_filter. tauto.
  - apply Forall2_fmap_r, Forall_Forall2_diag, Forall_true.
    intros r. split; [done|]. intros c Hc.
    rewrite get_cell_reindex. by rewrite bool_decide_true.
Qed.

(** C4: with no horizon both variants raise the configuration error, and its
    message is the literal text of the source, braces included: it does not
    mention the count, 0. *)
Theorem wrong_count_message_omits_count af am re fn df :
  OperationalPredictFeatureApplicator.add_features af am re
      (AbstractFeatureApplicator.mk fn (PyList [])) df =
    Error (ValueError "Expected one horizon, got {num_horizons}") ∧
  BackTestPredictFeatureApplicator.add_features af am re
      (AbstractFeatureApplicator.mk fn (PyList [])) df =
    Error (ValueError "Expected one horizon, got {num_horizons}") ∧
  reports_count "Expected one horizon, got {num_horizons}" 0 = false.
Proof. done. Qed.

(** C8: with one horizon and a list of requested features, under the
    contracts of the two reconciliation collaborators, both variants return
    a table whose columns are exactly the requested ones; a requested column
    the computation produced keeps its cells, a requested column it did not
    produce is missing on every row. *)
Theorem reconciled_columns_are_requested af am re fl h df computed computed' :
  adds_missing_columns am →
  removes_extra_columns re →
  af df (Some fl) h = Ok computed →
  af df None h = Ok computed' →
  let self := AbstractFeatureApplicator.mk (Some fl) (PyList [h]) in
  (∃ out,
     OperationalPredictFeatureApplicator.add_features af am re self df = Ok out ∧
     (∀ c, c ∈ columns out ↔ c ∈ fl) ∧
     Forall2 (λ r r', label r' = label r ∧
                      ∀ c, c ∈ fl →
                           get_cell c r' =
                             if bool_decide (c ∈ columns computed)
                             then get_cell c r else NaN)
             (rows computed) (rows out)) ∧
  (∃ out,
     BackTestPredictFeatureApplicator.add_features af am re self df = Ok out ∧
     (∀ c, c ∈ columns out ↔ c ∈ fl) ∧
     Forall2 (λ r r', label r' = label r ∧
                      ∀ c, c ∈ fl →
                           get_cell c r' =
                             if bool_decide (c ∈ columns computed')
                             then get_cell c r else NaN)
             (rows computed') (rows out)).
Proof.
  intros Hadd Hrem Hop Hbt self. split.
  - unfold self. rewrite operational_one, Hop.
    exact (reconcile_post am re fl computed Hadd Hrem).
  - unfold self. rewrite backtest_one, Hbt.
    exact (reconcile_post am re fl computed' Hadd Hrem).
Qed.

Lemma reconciled_columns_are_requested_witness :
  let fl := ["T-720min"; "APX"]%string in
  let self := AbstractFeatureApplicator.mk (Some fl) (PyList [Num (1 # 4)]) in
  (∃ out,
     OperationalPredictFeatureApplicator.add_features apply_features_lag
       add_missing_feature_columns remove_extra_feature_columns self table3
       = Ok out ∧
     (∀ c, c ∈ columns out ↔ c ∈ fl) ∧
     Forall2 (λ r r', label r' = label r ∧
                      ∀ c, c ∈ fl →
                           get_cell c r' =
                             if bool_decide
                                  (c ∈ columns (setitem table3 "T-720min" (Num 1)))
                             then get_cell c r else NaN)
             (rows (setitem table3 "T-720min" (Num 1))) (rows out)) ∧
  (∃ out,
     BackTestPredictFeatureApplicator.add_features apply_features_lag
       add_missing_feature_columns remove_extra_feature_columns self table3
       = Ok out ∧
     (∀ c, c ∈ columns out ↔ c ∈ fl) ∧
     Forall2 (λ r r', label r' = label r ∧
                      ∀ c, c ∈ fl →
                           get_cell c r' =
                             if bool_decide
                                  (c ∈ columns (setitem table3 "T-720min" (Num 1)))
                             then get_cell c r else NaN)
             (rows (setitem table3 "T-720min" (Num 1))) (rows out)).
Proof.
  exact (reconciled_columns_are_requested apply_features_lag
           add_missing_feature_columns remove_extra_feature_columns
           ["T-720min"; "APX"]%string (Num (1 # 4)) table3
           (setitem table3 "T-720min" (Num 1))
           (setitem table3 "T-720min" (Num 1))
           add_missing_feature_columns_contract
           remove_extra_feature_columns_contract eq_refl eq_refl).
Defined.

(** C9: the backtest variant calls the collaborator without a feature-name
    filter, the operational variant with the configured one, and both
    reconcile the columns afterwards: each result depends on the collaborator
    only through that call. *)
Theorem backtest_drops_feature_filter am re self df :
  (∀ af af', (∀ t h, af t None h = af' t None h) →
     BackTestPredictFeatureApplicator.add_features af am re self df =
     BackTestPredictFeatureApplicator.add_features af' am re self df) ∧
  (∀ af af',
     (∀ t h, af t (feature_names self) h = af' t (feature_names self) h) →
     OperationalPredictFeatureApplicator.add_features af am re self df =
     OperationalPredictFeatureApplicator.add_features af' am re self df) ∧
  (∀ af h, horizons self = PyList [h] →
     BackTestPredictFeatureApplicator.add_features af am re self df =
       (computed ← af df None h;
        completed ← am computed (feature_names self);
        re completed (feature_names self)) ∧
     OperationalPredictFeatureApplicator.add_features af am re self df =
       (computed ← af df (feature_names self) h;
        completed ← am computed (feature_names self);
        re completed (feature_names self))).
Proof.
  split; [|split].
  - intros af af' Hagree.
    unfold BackTestPredictFeatureApplicator.add_features.
    destruct (len (horizons self)) as [n|]; simpl; [|done].
    destruct (negb (n =? 1)%nat); [done|].
    destruct (getitem0 (horizons self)) as [h|]; simpl; [|done].
    by rewrite Hagree.
  - intros af af' Hagree.
    unfold OperationalPredictFeatureApplicator.add_features.
    destruct (len (horizons self)) as [n|]; simpl; [|done].
    destruct (negb (n =? 1)%nat); [done|].
    destruct (getitem0 (horizons self)) as [h|]; simpl; [|done].
    by rewrite Hagree.
  - intros af h Hh. destruct self as [fn hs]; simpl in *; subst hs.
    split; [apply backtest_one | apply operational_one].
Qed.

(** ** The training variant *)

Section train.
Variable apply_features : apply_features_t.

Local Abbreviation add_features :=
  (TrainFeatureApplicator.add_features apply_features).
Local Abbreviation for_horizons :=
  (TrainFeatureApplicator.for_horizons apply_features).
Local Abbreviation for_latency := TrainFeatureApplicator.for_latency.

(** *** The latency loop *)

Lemma loc_set_rows_invalidate int_col present c time rs :
  loc_set_rows present c NaN
      ((λ v, py_gt (element int_col v) time) <$> (get_cell "Horizon" <$> rs))
      rs =
    invalidate int_col present c time <$> rs.
Proof. induction rs as [|r rs IH]; [done|]. simpl. f_equal. exact IH. Qed.

(** A pass goes through when the frame has the column [Horizon] and either
    has the column of the feature or has a row. *)
Lemma for_latency_cons item items result :
  "Horizon" ∈ columns result →
  item.1 ∈ columns result ∨ rows result ≠ [] →
  for_latency (item :: items) result =
    for_latency items (latency_step result item).
Proof.
  intros Hcol Hgo. destruct item as [f t]; simpl in *. unfold getitem.
  rewrite (bool_decide_true _ Hcol); simpl.
  unfold loc_setitem, series_gt. rewrite loc_set_rows_invalidate.
  assert (negb (bool_decide (f ∈ columns result)) && (nrows result =? 0)%nat
          = false) as ->; [|done].
  destruct Hgo as [Hf|Hrows].
  - by rewrite (bool_decide_true _ Hf).
  - apply andb_false_iff. right. apply Nat.eqb_neq.
    unfold nrows. by destruct (rows result).
Qed.

Lemma for_latency_no_Horizon item items result :
  "Horizon" ∉ columns result →
  for_latency (item :: items) result = Error (KeyError "Horizon").
Proof.
  intros Hcol. destruct item as [f t]; simpl. unfold getitem.
  by rewrite (bool_decide_false _ Hcol).
Qed.

(** A pass for a feature that is no column raises on a frame without
    rows. *)
Lemma for_latency_new_column_no_row item items result :
  "Horizon" ∈ columns result →
  item.1 ∉ columns result →
  rows result = [] →
  for_latency (item :: items) result =
    Error (ValueError "cannot set a frame with no defined index and a scalar").
Proof.
  intros Hcol Hf Hrows. destruct item as [f t]; simpl in *. unfold getitem.
  rewrite (bool_decide_true _ Hcol); simpl. unfold loc_setitem, nrows.
  by rewrite (bool_decide_false _ Hf), Hrows.
Qed.

Lemma Horizon_latency_step result item :
  "Horizon" ∈ columns result → "Horizon" ∈ columns (latency_step result item).
Proof. intros H. simpl. apply elem_of_add_column. by left. Qed.

(** On a frame that has the column [Horizon], and a row or the columns of
    all the features, the loop runs to its end. *)
Lemma for_latency_total items result :
  "Horizon" ∈ columns result →
  rows result ≠ [] ∨ (∀ f, f ∈ items.*1 → f ∈ columns result) →
  for_latency items result = Ok (foldl latency_step result items).
Proof.
  revert result. induction items as [|item items IH]; intros result Hcol Hgo.
  - done.
  - rewrite for_latency_cons; [| done |].
    + simpl. apply IH; [by apply Horizon_latency_step|].
      destruct Hgo as [Hrows|Hfs].
      * left. simpl. by destruct (rows result).
      * right. intros f Hf. simpl. apply elem_of_add_column. left.
        apply Hfs. rewrite fmap_cons. by right.
    + destruct Hgo as [Hrows|Hfs]; [by right|left].
      apply Hfs. rewrite fmap_cons. left.
Qed.


Lemma for_latency_Ok items result out :
  for_latency items result = Ok out → out = foldl latency_step result items.
Proof.
  revert result. induction items as [|item items IH]; intros result.
  - by intros [= <-].
  - destruct (decide ("Horizon" ∈ columns result)) as [Hcol|Hcol];
      [|by rewrite for_latency_no_Horizon].
    destruct (decide (item.1 ∈ columns result ∨ rows result ≠ []))
      as [Hgo|Hstop].
    + rewrite for_latency_cons by done. apply IH.
    + rewrite for_latency_new_column_no_row; [done..| |].
      * intros Hf. apply Hstop. by left.
      * destruct (rows result) eqn:Hrows; [done|].
        destruct Hstop. by right.
Qed.

Lemma label_invalidate int_col present f t r :
  label (invalidate int_col present f t r) = label r.
Proof. unfold invalidate. by repeat case_match. Qed.

(** A pass writes nothing but NaN. *)
Lemma get_cell_invalidate int_col present f t c r :
  get_cell c (invalidate int_col present f t r) = get_cell c r ∨
  get_cell c (invalidate int_col present f t r) = NaN.
Proof.
  unfold invalidate. repeat case_match; rewrite ?get_cell_set_cell;
    try case_decide; auto.
Qed.

Lemma get_cell_invalidate_ne int_col present f t c r :
  c ≠ f → get_cell c (invalidate int_col present f t r) = get_cell c r.
Proof.
  intros Hne. unfold invalidate.
  repeat case_match; rewrite ?get_cell_set_cell; try case_decide; congruence.
Qed.

Lemma py_gt_NaN t : py_gt NaN t = false.
Proof. done. Qed.

(** The pass for [(f, t)] leaves [f] missing wherever the horizon exceeds
    [t] as float64. *)
Lemma invalidate_nulls int_col present f t r :
  float64_gt (get_cell "Horizon" (invalidate int_col present f t r)) t = true →
  get_cell f (invalidate int_col present f t r) = NaN.
Proof.
  unfold invalidate.
  destruct (py_gt (element int_col (get_cell "Horizon" r)) t) eqn:Hgt;
    [intros _; apply get_cell_set_cell_eq|].
  destruct present; [|intros _; apply get_cell_set_cell_eq].
  intros Hgt'. apply (float64_gt_element int_col) in Hgt'. congruence.
Qed.

(** A later pass does not bring a value back. *)
Lemma invalidate_keeps_nulled int_col present f' t' f t r :
  (float64_gt (get_cell "Horizon" r) t = true → get_cell f r = NaN) →
  float64_gt (get_cell "Horizon" (invalidate int_col present f' t' r)) t
    = true →
  get_cell f (invalidate int_col present f' t' r) = NaN.
Proof.
  intros Hr Hgt.
  destruct (get_cell_invalidate int_col present f' t' "Horizon" r) as [Heq|Heq];
    rewrite Heq in Hgt; [|done].
  destruct (get_cell_invalidate int_col present f' t' f r) as [Heq'|Heq'];
    rewrite Heq'; auto.
Qed.

Lemma latency_columns items result c :
  c ∈ columns (foldl latency_step result items) ↔
  c ∈ columns result ∨ c ∈ items.*1.
Proof.
  revert result. induction items as [|item items IH]; intros result; simpl.
  - rewrite elem_of_nil. tauto.
  - rewrite IH. simpl. rewrite elem_of_add_column, elem_of_cons.
    intuition auto.
Qed.

(** The loop keeps the rows and their labels; a cell either keeps its
    value or becomes missing, and it keeps its value in every column the
    configuration does not name. *)
Lemma latency_rows items result :
  Forall2 (λ r r', label r' = label r ∧
                   (∀ c, get_cell c r' = get_cell c r ∨ get_cell c r' = NaN) ∧
                   (∀ c, c ∉ items.*1 → get_cell c r' = get_cell c r))
          (rows result) (rows (foldl latency_step result items)).
Proof.
  revert result. induction items as [|[f t] items IH]; intros result; simpl.
  - apply Forall_Forall2_diag, Forall_true. intros r.
    split; [done|]. split; [by left|done].
  - eapply (Forall2_trans
              (λ r r1, ∃ int_col present,
                         r1 = invalidate int_col present f t r));
      [| |exact (IH _)].
    2:{ simpl. apply Forall2_fmap_r, Forall_Forall2_diag, Forall_true.
        intros r. by eexists _, _. }
    simpl. intros r ? r' (ic & p & ->) (Hl & Hfade & Hkeep). split; [|split].
    + by rewrite Hl, label_invalidate.
    + intros c. destruct (Hfade c) as [->| ->]; [|by right].
      apply get_cell_invalidate.
    + intros c Hc. rewrite not_elem_of_cons in Hc. destruct Hc as [Hcf Hc].
      rewrite (Hkeep c Hc). by apply get_cell_invalidate_ne.
Qed.

Lemma latency_keeps_nulled items result f t :
  Forall (λ r, float64_gt (get_cell "Horizon" r) t = true → get_cell f r = NaN)
         (rows result) →
  Forall (λ r, float64_gt (get_cell "Horizon" r) t = true → get_cell f r = NaN)
         (rows (foldl latency_step result items)).
Proof.
  revert result. induction items as [|[f' t'] items IH]; intros result Hres;
    simpl; [done|].
  apply IH. simpl. apply Forall_fmap. eapply Forall_impl; [exact Hres|].
  intros r Hr Hgt. eapply invalidate_keeps_nulled; [exact Hr|exact Hgt].
Qed.

(** After the loop, every feature of the configuration is missing wherever
    the horizon exceeds its threshold as float64. *)
Lemma latency_nulls items result f t :
  (f, t) ∈ items →
  Forall (λ r, float64_gt (get_cell "Horizon" r) t = true → get_cell f r = NaN)
         (rows (foldl latency_step result items)).
Proof.
  revert result. induction items as [|item items IH]; intros result Hin.
  - by apply elem_of_nil in Hin.
  - apply elem_of_cons in Hin as [<-|Hin]; simpl; [|by apply IH].
    apply latency_keeps_nulled. simpl. apply Forall_fmap, Forall_true.
    intros r Hgt. by apply invalidate_nulls.
Qed.

(** *** Sorting *)

#[local] Instance label_le_total : Total label_le.
Proof. intros r1 r2. unfold label_le. lia. Qed.

#[local] Instance label_le_trans : Transitive label_le.
Proof. intros r1 r2 r3. unfold label_le. lia. Qed.

Lemma sort_index_rows df : rows (sort_index df) ≡ₚ rows df.
Proof. apply merge_sort_Permutation. Qed.

Lemma sort_index_sorted df : StronglySorted Z.le (index (sort_index df)).
Proof.
  unfold index. apply (StronglySorted_fmap label label_le Z.le); [done|].
  apply StronglySorted_merge_sort; apply _.
Qed.

(** *** The call *)

Lemma add_features_list fn hs df lc :
  let self := AbstractFeatureApplicator.mk fn (PyList hs) in
  add_features self df lc =
    (self,
     acc ← for_horizons self df hs DataFrame_empty;
     res ← for_latency lc acc;
     mret (sort_index res)).
Proof. done. Qed.

Lemma add_features_None fn df lc :
  add_features (AbstractFeatureApplicator.mk fn PyNone) df lc =
  add_features
    (AbstractFeatureApplicator.mk fn (PyList [Num (1 # 4); Num 24])) df lc.
Proof. done. Qed.

(** A call that returns went through the three steps. *)
Lemma add_features_Ok self df lc self' out :
  add_features self df lc = (self', Ok out) →
  ∃ hs acc,
    horizons self' = PyList hs ∧
    for_horizons self' df hs DataFrame_empty = Ok acc ∧
    out = sort_index (foldl latency_step acc lc).
Proof.
  unfold TrainFeatureApplicator.add_features. intros [= <- Hout].
  destruct (horizons (TrainFeatureApplicator.set_default_horizons self))
    as [|x|hs] eqn:Hhs; simpl in Hout; [done|by destruct x|].
  exists hs.
  destruct (for_horizons _ df hs DataFrame_empty) as [acc|] eqn:Hacc;
    simpl in Hout; [|done].
  exists acc. split; [done|]. split; [done|].
  destruct (for_latency lc acc) as [res|] eqn:Hres; simpl in Hout; [|done].
  apply for_latency_Ok in Hres. by injection Hout as <-; subst.
Qed.
End train.

(** In a table the training variant returns, each feature of the latency
    configuration is a column, and it is missing on every row whose horizon
    exceeds the feature's threshold, both taken as float64. *)
Lemma invalidated_beyond_threshold af self df lc self' out f t r :
  TrainFeatureApplicator.add_features af self df lc = (self', Ok out) →
  (f, t) ∈ lc →
  r ∈ rows out →
  float64_gt (get_cell "Horizon" r) t = true →
  f ∈ columns out ∧ get_cell f r = NaN.
Proof.
  intros Hcall Hin Hr Hgt.
  apply add_features_Ok in Hcall as (hs & acc & _ & _ & ->). split.
  - simpl. apply latency_columns. right.
    apply list_elem_of_fmap. by exists (f, t).
  - rewrite sort_index_rows in Hr.
    pose proof (latency_nulls lc acc f t Hin) as Hall.
    rewrite Forall_forall in Hall. by apply Hall.
Qed.

(** *** Appending frames *)

Lemma elem_of_columns_append c a b :
  c ∈ columns (append a b) ↔ c ∈ columns a ∨ c ∈ columns b.
Proof.
  simpl. rewrite elem_of_app, list_elem_of_filter.
  destruct (decide (c ∈ columns a)); tauto.
Qed.

Lemma foldl_append_columns c fs acc :
  c ∈ columns (foldl append acc fs) ↔
  c ∈ columns acc ∨ ∃ f, f ∈ fs ∧ c ∈ columns f.
Proof.
  revert acc. induction fs as [|f fs IH]; intros acc; simpl.
  - split; [by left|]. intros [?|(f & Hf & _)]; [done|].
    by apply elem_of_nil in Hf.
  - rewrite IH, elem_of_columns_append. split.
    + intros [[?|?]|(f' & Hf' & ?)]; [by left| |].
      * right. exists f. split; [left|done].
      * right. exists f'. split; [by right|done].
    + intros [?|(f' & Hf' & ?)]; [by left; left|].
      apply elem_of_cons in Hf' as [->|Hf']; [by left; right|].
      right. by exists f'.
Qed.

Section append_facts.
Variable P : string → Prop.

Lemma agree_refl r : agree P r r.
Proof. by split. Qed.

Lemma agree_trans r1 r2 r3 : agree P r1 r2 → agree P r2 r3 → agree P r1 r3.
Proof.
  intros [Hl1 Hc1] [Hl2 Hc2]. split; [congruence|].
  intros c Hc. by rewrite (Hc2 c Hc), (Hc1 c Hc).
Qed.

Lemma Forall2_agree_refl rs : Forall2 (agree P) rs rs.
Proof. apply Forall_Forall2_diag, Forall_true, agree_refl. Qed.

(** What [append] returns has no value outside its columns. *)
Lemma confined_append a b : confined P (append a b).
Proof.
  unfold confined. simpl. apply Forall_fmap, Forall_true. intros r c _.
  simpl. rewrite get_cell_reindex. case_bool_decide; [by left|by right].
Qed.

Lemma agree_reindex cols df r :
  r ∈ rows df → confined P df → columns df ⊆ cols →
  agree P r (reindex cols r).
Proof.
  intros Hr Hdf Hsub. split; [done|]. intros c Hc.
  rewrite get_cell_reindex. case_bool_decide as Hin; [done|].
  unfold confined in Hdf. rewrite Forall_forall in Hdf.
  destruct (Hdf r Hr c Hc) as [Hcol|Hnan]; [|done].
  destruct Hin. by apply Hsub.
Qed.

(** [append] keeps the rows of both frames, in order, with their cells. *)
Lemma append_rows a b :
  confined P a → confined P b →
  Forall2 (agree P) (rows a ++ rows b) (rows (append a b)).
Proof.
  intros Ha Hb. simpl. rewrite fmap_app. apply Forall2_app.
  - apply Forall2_fmap_r, Forall_Forall2_diag, Forall_forall.
    intros r Hr. apply (agree_reindex _ a); [done..|].
    intros c Hc. apply (elem_of_columns_append c a b). by left.
  - apply Forall2_fmap_r, Forall_Forall2_diag, Forall_forall.
    intros r Hr. apply (agree_reindex _ b); [done..|].
    intros c Hc. apply (elem_of_columns_append c a b). by right.
Qed.

Lemma foldl_append_rows fs acc :
  confined P acc → Forall (confined P) fs →
  Forall2 (agree P) (rows acc ++ concat (rows <$> fs))
          (rows (foldl append acc fs)).
Proof.
  revert acc. induction fs as [|f fs IH]; intros acc Hacc Hfs; simpl.
  - rewrite app_nil_r. apply Forall2_agree_refl.
  - apply Forall_cons in Hfs as [Hf Hfs].
    eapply (Forall2_trans (agree P) (agree P));
      [apply agree_trans| |exact (IH _ (confined_append acc f) Hfs)].
    rewrite app_assoc. apply Forall2_app; [|apply Forall2_agree_refl].
    by apply append_rows.
Qed.

Lemma confined_rectangular df : rectangular df → confined P df.
Proof.
  unfold rectangular, confined. intros Hdf.
  eapply Forall_impl; [exact Hdf|]. intros r Hr c _.
  destruct (decide (c ∈ columns df)) as [|Hc]; [by left|right].
  unfold get_cell. by rewrite (Hr c Hc).
Qed.
End append_facts.

Lemma rectangular_setitem df c v : rectangular df → rectangular (setitem df c v).
Proof.
  unfold rectangular. simpl. intros Hdf. apply Forall_fmap.
  eapply Forall_impl; [exact Hdf|]. intros r Hr c' Hc'. simpl.
  rewrite elem_of_add_column in Hc'.
  rewrite lookup_insert_ne by (intros ->; tauto). apply Hr. tauto.
Qed.


Lemma Forall2_fmap_eq {A B} (f : A → B) l k :
  Forall2 (λ x y, f y = f x) l k → f <$> k = f <$> l.
Proof.
  induction 1 as [|x y l k Hxy _ IH]; [done|].
  rewrite !fmap_cons. by rewrite Hxy, IH.
Qed.



(** *** The loop over the horizons *)

Section horizons_loop.
Variable apply_features : apply_features_t.

Local Abbreviation for_horizons :=
  (TrainFeatureApplicator.for_horizons apply_features).

(** A loop that ends has one table from the collaborator per horizon, and
    returns them tagged and appended in order. *)
Lemma for_horizons_Ok self df hs acc out :
  for_horizons self df hs acc = Ok out →
  ∃ blocks,
    Forall2 (λ h b, apply_features df (feature_names self) h = Ok b)
            hs blocks ∧
    out = foldl append acc (tagged_frames hs blocks).
Proof.
  revert acc. induction hs as [|h hs IH]; intros acc; simpl.
  - intros [= <-]. exists []. by split.
  - destruct (apply_features df (feature_names self) h) as [b|] eqn:Hb;
      simpl; [|done].
    intros Hout. apply IH in Hout as (blocks & Hbs & ->).
    exists (b :: blocks). split; [by constructor|done].
Qed.

Lemma for_horizons_total self df hs acc blocks :
  Forall2 (λ h b, apply_features df (feature_names self) h = Ok b)
          hs blocks →
  for_horizons self df hs acc = Ok (foldl append acc (tagged_frames hs blocks)).
Proof.
  intros Hbs. revert acc.
  induction Hbs as [|h b hs blocks Hb _ IH]; intros acc; simpl; [done|].
  rewrite Hb. simpl. apply IH.
Qed.

End horizons_loop.

Lemma tagged_frames_cons h hs b blocks :
  tagged_frames (h :: hs) (b :: blocks) =
    setitem b "Horizon" h :: tagged_frames hs blocks.
Proof. done. Qed.


Lemma Horizon_in_tagged_frames hs blocks acc :
  hs ≠ [] → length hs = length blocks →
  "Horizon" ∈ columns (foldl append acc (tagged_frames hs blocks)).
Proof.
  intros Hhs Hlen. rewrite foldl_append_columns. right.
  destruct hs as [|h hs]; [done|]. destruct blocks as [|b blocks]; [done|].
  exists (setitem b "Horizon" h). split.
  - rewrite tagged_frames_cons. left.
  - simpl. apply elem_of_add_column. by right.
Qed.


(** ** The claims on the training variant *)

(** C5: on an applicator whose [horizons] is [None], [add_features] stores
    the list [[0.25, 24]] on the applicator before anything else, computes
    with it, and later calls find it there. *)
Theorem default_horizons_persist af fn df lc :
  let self := AbstractFeatureApplicator.mk fn PyNone in
  let self' := (TrainFeatureApplicator.add_features af self df lc).1 in
  self' = AbstractFeatureApplicator.mk fn (PyList [Num (1 # 4); Num 24]) ∧
  (TrainFeatureApplicator.add_features af self df lc).2 =
    (TrainFeatureApplicator.add_features af self' df lc).2 ∧
  ∀ df' lc',
    (TrainFeatureApplicator.add_features af self' df' lc').1 = self'.
Proof. done. Qed.

(** C10: with an empty list of horizons and a latency configuration that is
    not empty, the call raises [KeyError]: the accumulated table has no
    column [Horizon].  With an empty configuration it returns the empty
    table. *)
Theorem no_horizon_raises_KeyError af fn df item lc :
  let self := AbstractFeatureApplicator.mk fn (PyList []) in
  (TrainFeatureApplicator.add_features af self df (item :: lc)).2 =
    Error (KeyError "Horizon") ∧
  (TrainFeatureApplicator.add_features af self df []).2 = Ok DataFrame_empty.
Proof.
  split; [|done]. destruct item as [f t].
  reflexivity.
Qed.

(** C7: the table the training variant returns has its index in ascending
    order. *)
Theorem returned_table_is_sorted af self df lc self' out :
  TrainFeatureApplicator.add_features af self df lc = (self', Ok out) →
  StronglySorted Z.le (index out).
Proof.
  intros Hcall. apply add_features_Ok in Hcall as (hs & acc & _ & _ & ->).
  apply sort_index_sorted.
Qed.

Lemma returned_table_is_sorted_witness :
  let out :=
    sort_index
      (foldl latency_step
         (foldl append DataFrame_empty
            (tagged_frames [Num (1 # 4); Num 24] [table10; table10]))
         LATENCY_CONFIG) in
  TrainFeatureApplicator.add_features apply_features_none trainer table10
      LATENCY_CONFIG = (trainer, Ok out) ∧
  index out = [1; 1; 2; 2; 3; 3; 4; 4; 5; 5; 6; 6; 7; 7; 8; 8; 9; 9; 10; 10] ∧
  StronglySorted Z.le (index out).
Proof.
  split; [by vm_compute|]. split; [by vm_compute|].
  apply (returned_table_is_sorted apply_features_none trainer table10
           LATENCY_CONFIG trainer).
  by vm_compute.
Defined.

(** C1, as the code has it: in a table the training variant returns, each
    feature of the latency configuration is missing on every row whose
    horizon is strictly greater than the feature's threshold when the two
    are compared as float64, which is the plain order of the values for
    every float and every int of magnitude up to [2 ^ 53]; on a row whose
    horizon is at most the threshold the feature can have a value, as [APX]
    has on the rows of [table10] for the horizons 0.25 and 24 with the
    threshold 24. *)
Theorem latency_invalidation :
  (∀ af self df lc self' out f t r,
     TrainFeatureApplicator.add_features af self df lc = (self', Ok out) →
     (f, t) ∈ lc →
     r ∈ rows out →
     float64_gt (get_cell "Horizon" r) t = true →
     f ∈ columns out ∧ get_cell f r = NaN) ∧
  (∀ a b, exact64 a = true → exact64 b = true →
          float64_gt a b = value_gt a b) ∧
  (∃ out,
     (TrainFeatureApplicator.add_features apply_features_none trainer table10
        [("APX"%string, Num 24)]).2 = Ok out ∧
     Forall (λ r, py_le (get_cell "Horizon" r) (Num 24) = true ∧
                  get_cell "APX" r ≠ NaN) (rows out)).
Proof.
  split; [exact invalidated_beyond_threshold|].
  split; [exact float64_gt_exact|].
  exists (sort_index
            (foldl latency_step
               (foldl append DataFrame_empty
                  (tagged_frames [Num (1 # 4); Num 24] [table10; table10]))
               [("APX"%string, Num 24)])).
  split; [by vm_compute|].
  match goal with |- Forall _ ?l => let l' := eval vm_compute in l in change l with l' end.
  repeat (apply Forall_cons; split;
          [split; [vm_compute; reflexivity | vm_compute; discriminate]|]).
  by apply Forall_nil.
Qed.

Lemma latency_invalidation_witness :
  let self := AbstractFeatureApplicator.mk None (PyList [Num (1 # 4); Num 47]) in
  let out :=
    sort_index
      (foldl latency_step
         (foldl append DataFrame_empty
            (tagged_frames [Num (1 # 4); Num 47] [table3; table3]))
         [("load"%string, Num 24)]) in
  let r := set_cell "load" NaN (set_cell "Horizon" (Num 47)
             (mkRow 1 (<["load" := Num (inject_Z 1)]> ∅))) in
  TrainFeatureApplicator.add_features apply_features_none self table3
      [("load"%string, Num 24)] = (self, Ok out) ∧
  r ∈ rows out ∧
  float64_gt (get_cell "Horizon" r) (Num 24) = true ∧
  get_cell "load" r = NaN.
Proof.
  intros self out r.
  assert (TrainFeatureApplicator.add_features apply_features_none self table3
            [("load"%string, Num 24)] = (self, Ok out)) as Hcall
    by by vm_compute.
  assert (r ∈ rows out) as Hr
    by (vm_compute;
        repeat first [apply list_elem_of_here | apply list_elem_of_further]).
  split; [exact Hcall|]. split; [exact Hr|]. split; [by vm_compute|].
  exact (proj2 (proj1 latency_invalidation apply_features_none self table3
                  [("load"%string, Num 24)] self out "load"%string (Num 24) r
                  Hcall (list_elem_of_here _ _) Hr eq_refl)).
Defined.

(** C1, as the spec states it, fails for the int horizon [2 ^ 53 + 1] and
    the float threshold [2.0 ** 53]: the horizon is the greater number, but
    numpy compares the int64 column with the float after converting it to
    float64, where the two are equal, and [load] keeps its value. *)
Lemma invalidation_as_stated_fails :
  ¬ invalidation_as_stated apply_features_none
      (AbstractFeatureApplicator.mk None (PyList [Int (2 ^ 53 + 1)])) table3
      [("load"%string, Num (inject_Z (2 ^ 53)))].
Proof.
  intros Hclaim.
  set (r := set_cell "Horizon" (Int (2 ^ 53 + 1))
              (mkRow 1 (<["load" := Num (inject_Z 1)]> ∅))).
  assert (get_cell "load" r = NaN) as Hnan.
  { eapply (Hclaim _ "load"%string (Num (inject_Z (2 ^ 53))) r).
    - by vm_compute.
    - left.
    - vm_compute.
      repeat first [apply list_elem_of_here | apply list_elem_of_further].
    - by vm_compute. }
  vm_compute in Hnan. discriminate Hnan.
Qed.



(** What a call returns, when it does: the tagged tables appended,
    invalidated and sorted. *)
Lemma add_features_Ok_blocks af fn df hs blocks lc out :
  Forall2 (λ h b, af df fn h = Ok b) hs blocks →
  (TrainFeatureApplicator.add_features af
     (AbstractFeatureApplicator.mk fn (PyList hs)) df lc).2 = Ok out →
  out = sort_index
          (foldl latency_step
             (foldl append DataFrame_empty (tagged_frames hs blocks)) lc).
Proof.
  intros Hbs Hout. rewrite add_features_list in Hout.
  rewrite (for_horizons_total af (AbstractFeatureApplicator.mk fn (PyList hs))
             df hs DataFrame_empty blocks Hbs) in Hout.
  simpl in Hout.
  destruct (TrainFeatureApplicator.for_latency lc _) as [res|] eqn:Hres;
    simpl in Hout; [|done].
  injection Hout as <-. by apply for_latency_Ok in Hres as ->.
Qed.

(** With at least one horizon and a collaborator that returns, the call
    returns when the accumulated table has a row, or has the columns of all
    the features of the latency configuration. *)
Lemma add_features_returns af fn df hs blocks lc :
  hs ≠ [] →
  Forall2 (λ h b, af df fn h = Ok b) hs blocks →
  rows (foldl append DataFrame_empty (tagged_frames hs blocks)) ≠ [] ∨
  (∀ f, f ∈ lc.*1 →
        f ∈ columns (foldl append DataFrame_empty (tagged_frames hs blocks))) →
  (TrainFeatureApplicator.add_features af
     (AbstractFeatureApplicator.mk fn (PyList hs)) df lc).2 =
    Ok (sort_index
          (foldl latency_step
             (foldl append DataFrame_empty (tagged_frames hs blocks)) lc)).
Proof.
  intros Hhs Hbs Hgo. rewrite add_features_list.
  rewrite (for_horizons_total af (AbstractFeatureApplicator.mk fn (PyList hs))
             df hs DataFrame_empty blocks Hbs).
  simpl. rewrite for_latency_total; [done| |done].
  apply Horizon_in_tagged_frames; [done|]. by eapply Forall2_length.
Qed.





(** ** The scenario *)

(** A pass whose mask selects no row changes no value. *)
Lemma apx_view_unmasked acc :
  confined (λ c, c = "APX"%string) acc →
  Forall (λ r, py_gt (get_cell "Horizon" r) (Num 24) = false) (rows acc) →
  apx_view <$> rows (latency_step acc ("APX"%string, Num 24)) =
  apx_view <$> rows acc.
Proof.
  intros Hconf Hmask. simpl. rewrite <- list_fmap_compose.
  apply Forall_fmap_ext. unfold confined in Hconf.
  rewrite Forall_forall in Hconf, Hmask. apply Forall_forall. intros r Hr.
  simpl. unfold invalidate.
  rewrite (py_gt_false_element _ _ _ (Hmask r Hr)).
  case_bool_decide as Hcol; [done|].
  destruct (Hconf r Hr "APX"%string eq_refl) as [?|Hnan]; [done|].
  unfold apx_view. rewrite label_set_cell, !get_cell_set_cell, Hnan.
  by repeat case_decide.
Qed.

(** C2, as the code has it: in the scenario, under the contract of the
    collaborator, the call returns 20 rows in ascending order of timestamp,
    and they are the rows of the collaborator's two tables, tagged with
    their horizon, each with its [APX] value: the rows tagged 24 keep it
    like the rows tagged 0.25, since 24 does not exceed the threshold 24. *)
Theorem scenario_keeps_APX af df :
  nrows df = 10%nat →
  (∀ h, h ∈ [Num (1 # 4); Num 24] →
        ∃ res, af df None h = Ok res ∧ index res = index df ∧ rectangular res) →
  ∃ b1 b2 out,
    af df None (Num (1 # 4)) = Ok b1 ∧
    af df None (Num 24) = Ok b2 ∧
    (TrainFeatureApplicator.add_features af trainer df [("APX"%string, Num 24)]).2
      = Ok out ∧
    nrows out = 20%nat ∧
    apx_view <$> rows out ≡ₚ
      apx_view <$> (tagged (Num (1 # 4)) b1 ++ tagged (Num 24) b2) ∧
    (∀ r, r ∈ rows out →
       ∃ h b, (h = Num (1 # 4) ∧ b = b1 ∨ h = Num 24 ∧ b = b2) ∧
              get_cell "Horizon" r = h ∧
              ∃ r0, r0 ∈ rows b ∧ label r0 = label r ∧
                    get_cell "APX" r0 = get_cell "APX" r) ∧
    StronglySorted Z.le (index out).
Proof.
  intros Hrows Hcontract.
  destruct (Hcontract (Num (1 # 4))) as (b1 & Hb1 & Hi1 & Hr1); [left|].
  destruct (Hcontract (Num 24)) as (b2 & Hb2 & Hi2 & Hr2); [right; left|].
  set (f1 := setitem b1 "Horizon" (Num (1 # 4))).
  set (f2 := setitem b2 "Horizon" (Num 24)).
  set (acc := foldl append DataFrame_empty [f1; f2]).
  set (P := λ c : string, c = "Horizon"%string ∨ c = "APX"%string).
  assert (P "Horizon"%string) as HP1 by (by left).
  assert (P "APX"%string) as HP2 by (by right).
  assert (Forall2 (agree P) (rows f1 ++ rows f2) (rows acc)) as Hagree.
  { pose proof (foldl_append_rows P [f1; f2] DataFrame_empty) as H.
    simpl in H. rewrite app_nil_r in H. apply H.
    - by apply Forall_nil.
    - repeat apply Forall_cons_2; [..|by apply Forall_nil];
        by apply confined_rectangular, rectangular_setitem. }
  assert (apx_view <$> rows acc = apx_view <$> (rows f1 ++ rows f2)) as Hview.
  { apply Forall2_fmap_eq. eapply Forall2_impl; [exact Hagree|].
    intros r r' [Hl Hc]. unfold apx_view.
    by rewrite Hl, (Hc _ HP1), (Hc _ HP2). }
  assert (Forall (λ r, py_gt (get_cell "Horizon" r) (Num 24) = false) (rows acc))
    as Hmask.
  { eapply Forall2_Forall_r; [exact Hagree|].
    apply Forall_app. split; apply Forall_fmap, Forall_true; intros r r' [_ Hc];
      rewrite (Hc _ HP1); by rewrite get_cell_set_cell_eq. }
  set (res := latency_step acc ("APX"%string, Num 24)).
  assert (apx_view <$> rows (sort_index res) ≡ₚ
          apx_view <$> (tagged (Num (1 # 4)) b1 ++ tagged (Num 24) b2)) as Hperm.
  { rewrite sort_index_rows. unfold res. rewrite apx_view_unmasked; [by rewrite Hview|..|done].
    eapply Forall_impl; [apply (confined_append P (append DataFrame_empty f1) f2)|].
    intros r Hr c ->. apply Hr. by right. }
  exists b1, b2, (sort_index res).
  split; [done|]. split; [done|]. split; [|split; [|split; [done|split]]].
  - unfold trainer.
    rewrite (add_features_returns af None df [Num (1 # 4); Num 24] [b1; b2]);
      [done|done|by repeat constructor|].
    left. intros Hnil. change (rows acc = []) in Hnil.
    apply Forall2_length in Hagree. rewrite Hnil, length_app in Hagree.
    unfold f1 in Hagree. simpl in Hagree. rewrite length_fmap in Hagree.
    assert (length (rows b1) = 10%nat) as Hten
      by (rewrite <- Hrows; unfold nrows;
          rewrite <- (length_fmap label (rows b1)), <- (length_fmap label (rows df));
          by fold (index b1); fold (index df); rewrite Hi1).
    lia.
  - unfold nrows.
    transitivity (length (apx_view <$> rows (sort_index res)));
      [by rewrite length_fmap|].
    rewrite Hperm. unfold tagged; simpl.
    rewrite length_fmap, length_app, !length_fmap.
    assert (length (rows b1) = 10%nat) as ->
      by (rewrite <- Hrows; unfold nrows;
          rewrite <- (length_fmap label (rows b1)), <- (length_fmap label (rows df));
          by fold (index b1); fold (index df); rewrite Hi1).
    assert (length (rows b2) = 10%nat) as ->
      by (rewrite <- Hrows; unfold nrows;
          rewrite <- (length_fmap label (rows b2)), <- (length_fmap label (rows df));
          by fold (index b2); fold (index df); rewrite Hi2).
    done.
  - intros r Hr.
    assert (apx_view r ∈ apx_view <$> rows (sort_index res)) as Hin
      by by apply list_elem_of_fmap_2.
    rewrite Hperm in Hin. apply list_elem_of_fmap in Hin as (r1 & Hr1v & Hin).
    injection Hr1v as Hl Hh Ha.
    apply elem_of_app in Hin as [Hin|Hin];
      apply list_elem_of_fmap in Hin as (r0 & -> & Hr0).
    + exists (Num (1 # 4)), b1. split; [by left|].
      rewrite get_cell_set_cell_eq in Hh. split; [done|].
      exists r0. split; [done|]. split; [done|].
      by rewrite Ha, get_cell_set_cell.
    + exists (Num 24), b2. split; [by right|].
      rewrite get_cell_set_cell_eq in Hh. split; [done|].
      exists r0. split; [done|]. split; [done|].
      by rewrite Ha, get_cell_set_cell.
  - apply sort_index_sorted.
Qed.

Lemma rectangular_table10 : rectangular table10.
Proof.
  unfold rectangular, table10. cbn [rows columns].
  apply Forall_fmap, Forall_true. intros t c Hc; simpl.
  rewrite !not_elem_of_cons in Hc. destruct Hc as (Hload & Hapx & _).
  by rewrite !lookup_insert_ne, lookup_empty by done.
Qed.

Lemma scenario_keeps_APX_witness :
  ∃ b1 b2 out,
    apply_features_none table10 None (Num (1 # 4)) = Ok b1 ∧
    apply_features_none table10 None (Num 24) = Ok b2 ∧
    (TrainFeatureApplicator.add_features apply_features_none trainer table10
       [("APX"%string, Num 24)]).2 = Ok out ∧
    nrows out = 20%nat ∧
    apx_view <$> rows out ≡ₚ
      apx_view <$> (tagged (Num (1 # 4)) b1 ++ tagged (Num 24) b2) ∧
    (∀ r, r ∈ rows out →
       ∃ h b, (h = Num (1 # 4) ∧ b = b1 ∨ h = Num 24 ∧ b = b2) ∧
              get_cell "Horizon" r = h ∧
              ∃ r0, r0 ∈ rows b ∧ label r0 = label r ∧
                    get_cell "APX" r0 = get_cell "APX" r) ∧
    StronglySorted Z.le (index out).
Proof.
  apply (scenario_keeps_APX apply_features_none table10).
  - reflexivity.
  - intros h _. exists table10.
    split; [reflexivity|]. split; [reflexivity|]. exact rectangular_table10.
Defined.

(** C2, as the spec states it, fails on [table10] with a collaborator that
    hands the table back: the row for timestamp 1 tagged 24 still has its
    [APX] value, 101. *)
Lemma scenario_as_stated_fails :
  ¬ scenario_as_stated apply_features_none table10.
Proof.
  intros (out & Hout & _ & H24 & _).
  set (r := set_cell "Horizon" (Num 24) (load_apx_row 1)).
  assert (out = sort_index
                  (foldl latency_step
                     (foldl append DataFrame_empty
                        (tagged_frames [Num (1 # 4); Num 24] [table10; table10]))
                     [("APX"%string, Num 24)])) as ->.
  { unfold trainer in Hout.
    apply (add_features_Ok_blocks apply_features_none None table10
             [Num (1 # 4); Num 24] [table10; table10]); [|done].
    by repeat constructor. }
  assert (get_cell "APX" r = NaN) as Hnan.
  { apply H24; [|by vm_compute].
    vm_compute.
    repeat first [apply list_elem_of_here | apply list_elem_of_further]. }
  vm_compute in Hnan. discriminate Hnan.
Qed.


(** * Further properties of the applicators *)

(** ** Construction and the single-horizon variants *)

(** X1: the constructor returns an applicator exactly when [horizons] is a
    list, of any length, and the applicator holds the two arguments as they
    were passed. *)
Theorem init_accepts_exactly_lists h fn a :
  AbstractFeatureApplicator.__init__ h fn = Ok a ↔
  ∃ l, h = PyList l ∧ a = AbstractFeatureApplicator.mk fn (PyList l).
Proof.
  split.
  - destruct h as [|x|l]; [by rewrite init_not_list..|].
    rewrite init_list. intros [= <-]. by exists l.
  - intros (l & -> & ->). apply init_list.
Qed.

(** X2: with a list of horizons whose length is not 1, the operational and
    the backtest variant raise the same [ValueError], whatever the
    collaborators would do. *)
Theorem wrong_count_raises af am re fn hs df :
  length hs ≠ 1%nat →
  OperationalPredictFeatureApplicator.add_features af am re
      (AbstractFeatureApplicator.mk fn (PyList hs)) df =
    Error (ValueError "Expected one horizon, got {num_horizons}") ∧
  BackTestPredictFeatureApplicator.add_features af am re
      (AbstractFeatureApplicator.mk fn (PyList hs)) df =
    Error (ValueError "Expected one horizon, got {num_horizons}").
Proof.
  intros Hlen. split;
    [by apply operational_wrong_count | by apply backtest_wrong_count].
Qed.

Lemma wrong_count_raises_witness :
  let self := AbstractFeatureApplicator.mk None (PyList [Num (1 # 4); Num 24]) in
  OperationalPredictFeatureApplicator.add_features apply_features_none
      add_missing_feature_columns remove_extra_feature_columns self table3 =
    Error (ValueError "Expected one horizon, got {num_horizons}") ∧
  BackTestPredictFeatureApplicator.add_features apply_features_none
      add_missing_feature_columns remove_extra_feature_columns self table3 =
    Error (ValueError "Expected one horizon, got {num_horizons}").
Proof.
  apply (wrong_count_raises apply_features_none add_missing_feature_columns
           remove_extra_feature_columns None [Num (1 # 4); Num 24] table3).
  simpl. lia.
Defined.

(** X3: in the single-horizon variants an exception of a collaborator is the
    exception of the call: of [apply_features] first, then of
    [add_missing_feature_columns] on what was computed, then of
    [remove_extra_feature_columns] on what was completed. *)
Theorem single_horizon_errors_propagate af am re fn h df e :
  let self := AbstractFeatureApplicator.mk fn (PyList [h]) in
  (af df fn h = Error e →
   OperationalPredictFeatureApplicator.add_features af am re self df = Error e) ∧
  (af df None h = Error e →
   BackTestPredictFeatureApplicator.add_features af am re self df = Error e) ∧
  (∀ computed, am computed fn = Error e →
     (af df fn h = Ok computed →
      OperationalPredictFeatureApplicator.add_features af am re self df
        = Error e) ∧
     (af df None h = Ok computed →
      BackTestPredictFeatureApplicator.add_features af am re self df
        = Error e)) ∧
  (∀ computed completed,
     am computed fn = Ok completed → re completed fn = Error e →
     (af df fn h = Ok computed →
      OperationalPredictFeatureApplicator.add_features af am re self df
        = Error e) ∧
     (af df None h = Ok computed →
      BackTestPredictFeatureApplicator.add_features af am re self df
        = Error e)).
Proof.
  intros self. unfold self. rewrite operational_one, backtest_one.
  split; [by intros ->|]. split; [by intros ->|]. split.
  - intros computed Ham. split; intros ->; simpl; by rewrite Ham.
  - intros computed completed Ham Hre.
    split; intros ->; simpl; rewrite Ham; simpl; by rewrite Hre.
Qed.

(** X5: the training variant never changes an applicator the constructor
    returned: the constructor only lets lists through, so the branch that
    stores the default horizons is not taken, and the horizons and the
    requested features stay as they were passed. *)
Theorem constructed_applicator_is_unchanged af h fn a df lc :
  TrainFeatureApplicator.__init__ h fn = Ok a →
  (TrainFeatureApplicator.add_features af a df lc).1 = a ∧
  horizons a = h ∧ feature_names a = fn.
Proof.
  unfold TrainFeatureApplicator.__init__.
  destruct h as [|x|l]; [by rewrite init_not_list..|].
  rewrite init_list. by intros [= <-].
Qed.

Lemma constructed_applicator_is_unchanged_witness :
  (TrainFeatureApplicator.add_features apply_features_none trainer table3
     LATENCY_CONFIG).1 = trainer ∧
  horizons trainer = PyList [Num (1 # 4); Num 24] ∧
  feature_names trainer = None.
Proof.
  apply (constructed_applicator_is_unchanged apply_features_none
           (PyList [Num (1 # 4); Num 24]) None trainer table3 LATENCY_CONFIG).
  reflexivity.
Defined.

(** ** The training variant, cell by cell *)


Lemma confined_foldl_append P fs acc :
  confined P acc → confined P (foldl append acc fs).
Proof.
  revert acc. induction fs as [|f fs IH]; intros acc Hacc; simpl; [done|].
  apply IH, confined_append.
Qed.









(** A call on a list of horizons that returns: the applicator is unchanged
    and the table is the sorted, invalidated accumulation of the tagged
    tables of the collaborator. *)
Lemma add_features_list_Ok af fn hs df lc self' out :
  TrainFeatureApplicator.add_features af
    (AbstractFeatureApplicator.mk fn (PyList hs)) df lc = (self', Ok out) →
  ∃ blocks,
    Forall2 (λ h b, af df fn h = Ok b) hs blocks ∧
    out = sort_index
            (foldl latency_step
               (foldl append DataFrame_empty (tagged_frames hs blocks)) lc).
Proof.
  intros Hcall. pose proof Hcall as Hself. rewrite add_features_list in Hself.
  injection Hself as <- _.
  apply add_features_Ok in Hcall as (hs0 & acc & [= <-] & Hacc & ->).
  apply for_horizons_Ok in Hacc as (blocks & Hbs & ->). by exists blocks.
Qed.

Lemma columns_tagged_frames hs blocks c :
  length hs = length blocks →
  (∃ fr, fr ∈ tagged_frames hs blocks ∧ c ∈ columns fr) ↔
  (blocks ≠ [] ∧ c = "Horizon"%string) ∨ ∃ b, b ∈ blocks ∧ c ∈ columns b.
Proof.
  intros Hlen. split.
  - intros (fr & Hfr & Hc).
    apply elem_of_lookup_zip_with in Hfr as (i & h & b & -> & _ & Hb).
    simpl in Hc. apply elem_of_add_column in Hc as [Hc| ->].
    + right. exists b. split; [by eapply list_elem_of_lookup_2|done].
    + left. split; [|done]. intros ->. by rewrite lookup_nil in Hb.
  - intros [[Hne ->]|(b & Hb & Hc)].
    + destruct blocks as [|b blocks]; [done|]. destruct hs as [|h hs]; [done|].
      exists (setitem b "Horizon" h). split; [rewrite tagged_frames_cons; left|].
      simpl. apply elem_of_add_column. by right.
    + apply list_elem_of_lookup in Hb as [i Hb].
      destruct (lookup_lt_is_Some_2 hs i) as [h Hh].
      { rewrite Hlen. by eapply lookup_lt_Some. }
      exists (setitem b "Horizon" h). split.
      * apply elem_of_lookup_zip_with. by exists i, h, b.
      * simpl. apply elem_of_add_column. by left.
Qed.

Lemma for_horizons_fails af self df hs1 h hs2 blocks e acc :
  Forall2 (λ h b, af df (feature_names self) h = Ok b) hs1 blocks →
  af df (feature_names self) h = Error e →
  TrainFeatureApplicator.for_horizons af self df (hs1 ++ h :: hs2) acc = Error e.
Proof.
  intros Hbs He. revert acc.
  induction Hbs as [|h1 b hs1 blocks Hb _ IH]; intros acc; simpl.
  - by rewrite He.
  - rewrite Hb. simpl. apply IH.
Qed.


(** X4: the training variant stops at the first horizon for which the
    collaborator raises, and raises that exception; the horizons after it
    and the latency configuration play no part. *)
Theorem first_failing_horizon_raises af fn df hs1 h hs2 blocks e lc :
  Forall2 (λ h b, af df fn h = Ok b) hs1 blocks →
  af df fn h = Error e →
  (TrainFeatureApplicator.add_features af
     (AbstractFeatureApplicator.mk fn (PyList (hs1 ++ h :: hs2))) df lc).2 =
    Error e.
Proof.
  intros Hbs He. rewrite add_features_list.
  by rewrite (for_horizons_fails af (AbstractFeatureApplicator.mk fn _) df
                hs1 h hs2 blocks e DataFrame_empty Hbs He).
Qed.

Lemma first_failing_horizon_raises_witness :
  (TrainFeatureApplicator.add_features apply_features_short
     (AbstractFeatureApplicator.mk None (PyList [Num (1 # 4); Num 24; Num 47]))
     table3 LATENCY_CONFIG).2 =
    Error (OtherError "no data for this horizon").
Proof.
  apply (first_failing_horizon_raises apply_features_short None table3
           [Num (1 # 4)] (Num 24) [Num 47] [table3]).
  - by repeat constructor.
  - reflexivity.
Defined.

(** X6: the columns of the table the training variant returns, for at least
    one horizon: the columns of the collaborator's tables, the column
    [Horizon], and every feature of the latency configuration, computed or
    not.  No column is dropped. *)
Theorem training_columns af fn hs df lc blocks out c :
  hs ≠ [] →
  Forall2 (λ h b, af df fn h = Ok b) hs blocks →
  (TrainFeatureApplicator.add_features af
     (AbstractFeatureApplicator.mk fn (PyList hs)) df lc).2 = Ok out →
  (c ∈ columns out ↔
   c = "Horizon"%string ∨ c ∈ lc.*1 ∨ ∃ b, b ∈ blocks ∧ c ∈ columns b).
Proof.
  intros Hhs Hbs Hout.
  apply (add_features_Ok_blocks af fn df hs blocks lc out Hbs) in Hout as ->.
  simpl.
  pose proof (Forall2_length _ _ _ Hbs) as Hlen.
  rewrite latency_columns, foldl_append_columns, (columns_tagged_frames _ _ _ Hlen).
  assert (blocks ≠ []) as Hne by (intros ->; by destruct hs).
  simpl. rewrite elem_of_nil. tauto.
Qed.

Lemma training_columns_witness :
  ∃ out,
    (TrainFeatureApplicator.add_features apply_features_none trainer table3
       LATENCY_CONFIG).2 = Ok out ∧
    ("APX"%string ∈ columns out ↔
     "APX"%string = "Horizon"%string ∨ "APX"%string ∈ LATENCY_CONFIG.*1 ∨
     ∃ b, b ∈ [table3; table3] ∧ "APX"%string ∈ columns b).
Proof.
  eexists. split; [reflexivity|].
  apply (training_columns apply_features_none None [Num (1 # 4); Num 24]
           table3 LATENCY_CONFIG [table3; table3]).
  - done.
  - by repeat constructor.
  - reflexivity.
Defined.







(** X10: a feature of the latency configuration that the collaborator did
    not compute for any horizon is a column of the returned table all the
    same, missing on every row, whatever its threshold. *)
Theorem uncomputed_latency_feature_is_missing af fn hs df lc self' out f t :
  TrainFeatureApplicator.add_features af
    (AbstractFeatureApplicator.mk fn (PyList hs)) df lc = (self', Ok out) →
  (f, t) ∈ lc →
  f ≠ "Horizon"%string →
  (∀ h res, af df fn h = Ok res → f ∉ columns res) →
  f ∈ columns out ∧ ∀ r, r ∈ rows out → get_cell f r = NaN.
Proof.
  intros Hcall Hin Hf Haf.
  apply add_features_list_Ok in Hcall as (blocks & Hbs & ->).
  set (acc := foldl append DataFrame_empty (tagged_frames hs blocks)).
  split.
  - simpl. apply latency_columns. right.
    apply list_elem_of_fmap. by exists (f, t).
  - assert (f ∉ columns acc) as Hcol.
    { unfold acc. rewrite foldl_append_columns.
      intros [Hnil|(fr & Hfr & Hc)]; [by apply elem_of_nil in Hnil|].
      apply elem_of_lookup_zip_with in Hfr as (i & h & b & -> & Hh & Hb).
      simpl in Hc. apply elem_of_add_column in Hc as [Hc|Hc]; [|done].
      eapply Forall2_lookup_lr in Hbs; [|exact Hh|exact Hb].
      by apply (Haf h b). }
    assert (confined (λ _, True) acc) as Hacc
      by (apply confined_foldl_append; by apply Forall_nil).
    intros r Hr. rewrite sort_index_rows in Hr. revert r Hr.
    apply Forall_forall.
    eapply Forall2_Forall_r; [apply latency_rows|].
    eapply Forall_impl; [exact Hacc|].
    intros r Hr r' (_ & Hfade & _).
    destruct (Hr f I) as [?|Hnan]; [done|].
    destruct (Hfade f) as [-> | ->]; done.
Qed.

Lemma uncomputed_latency_feature_is_missing_witness :
  let out :=
    sort_index
      (foldl latency_step
         (foldl append DataFrame_empty
            (tagged_frames [Num (1 # 4); Num 24] [table3; table3]))
         LATENCY_CONFIG) in
  "APX"%string ∈ columns out ∧ ∀ r, r ∈ rows out → get_cell "APX" r = NaN.
Proof.
  apply (uncomputed_latency_feature_is_missing apply_features_none None
           [Num (1 # 4); Num 24] table3 LATENCY_CONFIG trainer _
           "APX"%string (Num 24)).
  - by vm_compute.
  - left.
  - done.
  - intros h res [= <-]. vm_compute. by intros ?%list_elem_of_singleton.
Defined.
